(** * react-native-classicbluetooth-sdk: permission gateway and Bluetooth façade

    A shallow embedding of [src/permission.ts] and of the Bluetooth module
    that imports it.  Every exported operation is a short asynchronous
    function around one call into a native binding (PermissionsAndroid,
    Geolocation, RNBluetoothClassic, ToastAndroid, console).  The embedding
    keeps the code's control flow ([try]/[catch]/[finally], [throw], early
    [return]) in a small monad that
      - reads the behaviour of the native side from an oracle ([Binding]),
      - emits the observable events of a call (native calls, console lines,
        toasts) in the order they happen, and
      - ends in a resolved value or a rejection. *)

From Stdlib Require Import Ascii.
From stdpp Require Import base strings list gmap pretty.

Local Set Warnings "-register-all".

Open Scope string_scope.
Open Scope list_scope.
Open Scope Z_scope.

(** ** JavaScript values *)

(** The values the two modules handle.  A device handle is opaque to this
    layer: it is identified by its address. *)
Inductive Val : Type :=
| VUndefined
| VNull
| VBool (b : bool)
| VNum (n : Z)
| VStr (s : string)
| VDevice (address : string)
| VArray (items : list Val)
| VError (message : string).

(** [!v] is [negb (truthy v)]. *)
Definition truthy (v : Val) : bool :=
  match v with
  | VUndefined | VNull => false
  | VBool b => b
  | VNum n => negb (n =? 0)
  | VStr s => negb (String.eqb s "")
  | VDevice _ | VArray _ | VError _ => true
  end.

Definition LF : string := String "010"%char EmptyString.
Definition CR : string := String "013"%char EmptyString.

(** String conversion as done by a template literal [`${v}`].  Numbers are
    the integers of magnitude below 1e21, which JavaScript prints digit by
    digit (larger ones print in exponent notation). *)
Fixpoint js_to_string (v : Val) : string :=
  match v with
  | VUndefined => "undefined"
  | VNull => "null"
  | VBool true => "true"
  | VBool false => "false"
  | VNum n => pretty n
  | VStr s => s
  | VDevice _ => "[object Object]"
  | VArray items =>
      String.concat ","
        (map (fun x => match x with
                       | VUndefined | VNull => ""
                       | _ => js_to_string x
                       end) items)
  | VError message =>
      if String.eqb message "" then "Error" else "Error: " +:+ message
  end.

(** ** Observable events *)

Inductive Level : Type := Log | Warn | Error.

(** Second argument of [ToastAndroid.show] as the code passes it. *)
Inductive ToastArg : Type := SHORT | BOTTOM.

(** Calls that cross the native boundary, with their arguments. *)
Inductive NativeCall : Type :=
| RequestMultiple (permissions : list string)
| Check (permission : string)
| GetCurrentPosition (enableHighAccuracy : bool) (timeout maximumAge : Z)
| IsBluetoothEnabled
| RequestBluetoothEnabled
| StartDiscovery
| CancelDiscovery
| ConnectToDevice (deviceId delimiter : string)
| DisconnectFromDevice (deviceId : string)
| PairDevice (deviceId : string)
| UnpairDevice (deviceId : string)
| GetBondedDevices
| GetConnectedDevices
| OnBluetoothEnabled (callback : nat)
| OnBluetoothDisabled (callback : nat)
| OnStateChanged (callback : nat)
| OnDeviceConnected (callback : nat)
| OnDeviceDisconnected (callback : nat)
| OpenBluetoothSettings
| SubscriptionRemove (subscription : nat)
| DeviceRead (address : string)
| DeviceWrite (address data : string)
| DeviceAvailable (address : string)
| DeviceClear (address : string).

Inductive Event : Type :=
| Native (c : NativeCall)
| Console (lvl : Level) (args : list Val)
| Toast (message : string) (arg : ToastArg).

Definition History : Type := list Event.

(** ** Outcomes, native behaviour *)

(** How a promise settles (or how a synchronous call completes). *)
Inductive Result (A : Type) : Type :=
| Resolved (a : A)
| Rejected (error : Val).
Arguments Resolved {A} a.
Arguments Rejected {A} error.

(** The one-shot position request reports through one of two callbacks, or
    throws before it has taken the request. *)
Inductive GeoResult : Type :=
| GeoPosition
| GeoError (message : string)
| GeoThrows (error : Val).

(** A live event registration.  What [remove] does is up to the binding. *)
Record Subscription : Type := {
  sub_id : nat;
  sub_remove : History -> Result Val
}.

(** A connected device object with its four primitives. *)
Record BluetoothDevice : Type := {
  dev_address : string;
  dev_read : History -> Result Val;
  dev_write : string -> History -> Result Val;
  dev_available : History -> Result Val;
  dev_clear : History -> Result Val
}.

(** The native side.  Each entry decides how one call settles; it may depend
    on the arguments and on everything that has happened so far. *)
Record Binding : Type := {
  PermissionsAndroid_requestMultiple :
    list string -> History -> Result (gmap string string);
  PermissionsAndroid_check : string -> History -> Result bool;
  Geolocation_getCurrentPosition : History -> GeoResult;
  RN_isBluetoothEnabled : History -> Result Val;
  RN_requestBluetoothEnabled : History -> Result Val;
  RN_startDiscovery : History -> Result Val;
  RN_cancelDiscovery : History -> Result Val;
  RN_connectToDevice : string -> string -> History -> Result Val;
  RN_disconnectFromDevice : string -> History -> Result Val;
  RN_pairDevice : string -> History -> Result Val;
  RN_unpairDevice : string -> History -> Result Val;
  RN_getBondedDevices : History -> Result Val;
  RN_getConnectedDevices : History -> Result Val;
  RN_onBluetoothEnabled : nat -> History -> Result Subscription;
  RN_onBluetoothDisabled : nat -> History -> Result Subscription;
  RN_onStateChanged : nat -> History -> Result Subscription;
  RN_onDeviceConnected : nat -> History -> Result Subscription;
  RN_onDeviceDisconnected : nat -> History -> Result Subscription;
  RN_openBluetoothSettings : History -> Result Val
}.

(** ** The monad of the embedding *)

(** A computation reads the binding and the history before it, and returns
    how it ended together with the events it emitted, oldest first. *)
Definition M (A : Type) : Type := Binding -> History -> Result A * list Event.

Global Instance M_ret : MRet M := fun A a _ _ => (Resolved a, []).

Global Instance M_bind : MBind M := fun A B f m b h =>
  match m b h with
  | (Resolved a, es) =>
      let '(r, es') := f a b (h ++ es) in (r, es ++ es')
  | (Rejected e, es) => (Rejected e, es)
  end.

(** [throw e] *)
Definition throw {A} (e : Val) : M A := fun _ _ => (Rejected e, []).

(** [try { body } catch (error) { handler error }] *)
Definition try_catch {A} (body : M A) (handler : Val -> M A) : M A :=
  fun b h =>
    match body b h with
    | (Resolved a, es) => (Resolved a, es)
    | (Rejected e, es) =>
        let '(r, es') := handler e b (h ++ es) in (r, es ++ es')
    end.

(** [try { body } finally { cleanup }]: the cleanup runs however the body
    ended; when the cleanup throws, its error replaces the body's outcome. *)
Definition try_finally {A B} (body : M A) (cleanup : M B) : M A :=
  fun b h =>
    let '(r, es) := body b h in
    match cleanup b (h ++ es) with
    | (Resolved _, es') => (r, es ++ es')
    | (Rejected e, es') => (Rejected e, es ++ es')
    end.

(** One call into the binding: the call is recorded, [oracle] settles it. *)
Definition native {A} (c : NativeCall) (oracle : Binding -> History -> Result A)
  : M A :=
  fun b h => (oracle b h, [Native c]).

Definition console (lvl : Level) (args : list Val) : M unit :=
  fun _ _ => (Resolved tt, [Console lvl args]).

Definition ToastAndroid_show (message : string) (arg : ToastArg) : M unit :=
  fun _ _ => (Resolved tt, [Toast message arg]).

(** Calling an asynchronous function yields a promise; the call itself does
    not throw ([PermissionsAndroid.check] hands every failure over through
    the promise it returns). *)
Definition promise {A} (m : M A) : M (Result A) :=
  fun b h => let '(r, es) := m b h in (Resolved r, es).

(** [await p] *)
Definition await {A} (p : Result A) : M A := fun _ _ => (p, []).

(** [xs.map(f)] for an [f] with effects: element by element, in order. *)
Fixpoint Array_map {A B} (f : A -> M B) (xs : list A) : M (list B) :=
  match xs with
  | [] => mret []
  | x :: xs' => y ← f x; ys ← Array_map f xs'; mret (y :: ys)
  end.

(** [Promise.all]: every value when all promises fulfil, otherwise a
    rejection.  JavaScript takes the rejection that settles first; the
    promises here carry no time, and the rejection is taken from the first
    rejected promise of the list.  The choice shows only in the error that
    [checkAllPermissions] logs. *)
Fixpoint Promise_all {A} (ps : list (Result A)) : Result (list A) :=
  match ps with
  | [] => Resolved []
  | Resolved a :: ps' =>
      match Promise_all ps' with
      | Resolved l => Resolved (a :: l)
      | Rejected e => Rejected e
      end
  | Rejected e :: _ => Rejected e
  end.

(** [xs.filter((x, index) => f index x)] *)
Fixpoint filter_index_from {A} (f : nat -> A -> bool) (i : nat) (xs : list A)
  : list A :=
  match xs with
  | [] => []
  | x :: xs' =>
      if f i x then x :: filter_index_from f (S i) xs'
      else filter_index_from f (S i) xs'
  end.
Definition Array_filter_index {A} (f : nat -> A -> bool) (xs : list A) : list A :=
  filter_index_from f 0%nat xs.

(** ** permission.ts *)

Module Permission.

(** [PermissionsAndroid.PERMISSIONS.*] and [PermissionsAndroid.RESULTS.GRANTED]
    are constants of react-native. *)
Definition BLUETOOTH_SCAN : string := "android.permission.BLUETOOTH_SCAN".
Definition BLUETOOTH_CONNECT : string := "android.permission.BLUETOOTH_CONNECT".
Definition ACCESS_FINE_LOCATION : string :=
  "android.permission.ACCESS_FINE_LOCATION".
Definition GRANTED : string := "granted".

Definition ALL_PERMISSIONS : list string :=
  [BLUETOOTH_SCAN; BLUETOOTH_CONNECT; ACCESS_FINE_LOCATION].

(** [granted[permission] === PermissionsAndroid.RESULTS.GRANTED] *)
Definition is_granted (granted : gmap string string) (permission : string)
  : bool :=
  bool_decide (granted !! permission = Some GRANTED).

Definition requestAllPermissions : M bool :=
  try_catch
    (granted ← native (RequestMultiple ALL_PERMISSIONS)
                 (fun b => PermissionsAndroid_requestMultiple b ALL_PERMISSIONS);
     let allGranted := forallb (is_granted granted) ALL_PERMISSIONS in
     if negb allGranted then
       let notGranted :=
         List.filter (fun permission => negb (is_granted granted permission))
           ALL_PERMISSIONS in
       let alertMessage :=
         String.concat LF
           (map (fun permission => permission +:+ " is not granted.")
              notGranted) in
       console Warn [VStr alertMessage];;
       mret false
     else
       console Log [VStr "ALL GRANTED"; VBool allGranted];;
       mret allGranted)
    (fun error =>
       console Error [VStr "Error requesting permissions"; error];;
       mret false).

Definition checkAllPermissions : M bool :=
  try_catch
    (promises ← Array_map
                  (fun permission =>
                     promise (native (Check permission)
                                (fun b => PermissionsAndroid_check b permission)))
                  ALL_PERMISSIONS;
     results ← await (Promise_all promises);
     let allGranted := forallb (fun isGranted : bool => isGranted) results in
     if negb allGranted then
       let notGranted :=
         Array_filter_index
           (fun index _ => negb (default false (results !! index)))
           ALL_PERMISSIONS in
       let alertMessage :=
         String.concat LF
           (map (fun permission => permission +:+ " is not granted.")
              notGranted) in
       console Warn [VStr alertMessage];;
       mret false
     else mret allGranted)
    (fun error =>
       console Error [VStr "Error checking permissions"; error];;
       mret false).

(** The executor of the promise calls [Geolocation.getCurrentPosition] with
    the two callbacks; an exception of that call rejects the promise, as an
    executor's exception does.  A binding that takes the request and then
    calls neither callback leaves the promise pending; such a binding is
    outside [GeoResult]. *)
Definition requestLocationService : M bool :=
  fun b h =>
    let call := Native (GetCurrentPosition true 15000 10000) in
    match Geolocation_getCurrentPosition b h with
    | GeoPosition => (Resolved true, [call])
    | GeoError message =>
        (Resolved false, [call; Console Error [VStr message]])
    | GeoThrows error => (Rejected error, [call])
    end.

End Permission.

(** ** The Bluetooth module *)

(** [if (c) stmt;] where [stmt] yields nothing. *)
Definition when_ (c : bool) (stmt : M unit) : M unit :=
  if c then stmt else mret tt.

(** [xs.forEach(f)]: element by element, in order; an exception thrown by
    [f] leaves the loop. *)
Fixpoint Array_forEach {A B} (f : A -> M B) (xs : list A) : M unit :=
  match xs with
  | [] => mret tt
  | x :: xs' => f x;; Array_forEach f xs'
  end.

(** [subscription.remove()] *)
Definition Subscription_remove (subscription : Subscription) : M Val :=
  native (SubscriptionRemove (sub_id subscription))
    (fun _ => sub_remove subscription).

Module Bluetooth.
Import Permission.

Definition isBluetoothEnabled : M Val :=
  try_catch
    (native IsBluetoothEnabled RN_isBluetoothEnabled)
    (fun err =>
       console Error [err];;
       throw (VError "Failed to check if Bluetooth is enabled")).

Definition enableBluetooth : M Val :=
  try_catch
    (native RequestBluetoothEnabled RN_requestBluetoothEnabled;;
     mret VUndefined)
    (fun error =>
       console Error [VStr "Error enabling Bluetooth"; error];;
       throw (VError "Failed to enable Bluetooth")).

Definition startDiscovery : M Val :=
  isBLenabled ← isBluetoothEnabled;
  allPermission ← checkAllPermissions;
  if negb (truthy isBLenabled) then
    enableBL ← enableBluetooth;
    mret enableBL
  else if negb allPermission then
    mret (VBool allPermission)
  else
    try_finally
      (try_catch
         (unpaired ← native StartDiscovery RN_startDiscovery;
          mret unpaired)
         (fun error =>
            console Error [error];;
            mret error))
      (native CancelDiscovery RN_cancelDiscovery;;
       console Log [VStr "Discovery stopped"]).

Definition stopDiscovery : M Val :=
  try_catch
    (cancelled ← native CancelDiscovery RN_cancelDiscovery;
     console Log [cancelled];;
     mret VUndefined)
    (fun error =>
       ToastAndroid_show
         "Error occurred while attempting to cancel discover devices" BOTTOM;;
       mret VUndefined).

Definition connectDevice (deviceId : string) : M Val :=
  try_catch
    (connected ← native (ConnectToDevice deviceId CR)
                   (fun b => RN_connectToDevice b deviceId CR);
     when_ (negb (truthy connected))
       (throw (VError ("Failed to connect to device: " +:+ deviceId)));;
     console Log [VStr ("Connected to device: " +:+ deviceId)];;
     mret connected)
    (fun error =>
       ToastAndroid_show ("Error connecting to device: " +:+ deviceId) BOTTOM;;
       mret (VBool false)).

Definition disconnectDevice (deviceId : string) : M Val :=
  try_catch
    (disconnected ← native (DisconnectFromDevice deviceId)
                      (fun b => RN_disconnectFromDevice b deviceId);
     when_ (negb (truthy disconnected))
       (throw (VError ("Failed to disconnect from device: " +:+ deviceId)));;
     console Log [VStr ("Disconnected from device: " +:+ deviceId)];;
     mret disconnected)
    (fun error =>
       console Error
         [VStr ("Error disconnecting from device: " +:+ deviceId); error];;
       throw error).

Definition pairDevice (deviceId : string) : M Val :=
  try_catch
    (paired ← native (PairDevice deviceId)
                (fun b => RN_pairDevice b deviceId);
     when_ (negb (truthy paired))
       (throw (VError ("Failed to pair with device: " +:+ deviceId)));;
     mret paired)
    (fun error =>
       console Error [VStr ("Error pairing with device: " +:+ deviceId); error];;
       throw error).

Definition unPairDevice (deviceId : string) : M Val :=
  try_catch
    (unpaired ← native (UnpairDevice deviceId)
                  (fun b => RN_unpairDevice b deviceId);
     when_ (negb (truthy unpaired))
       (throw (VError ("Failed to unpair with device: " +:+ deviceId)));;
     mret unpaired)
    (fun error =>
       console Error
         [VStr ("Error unpairing with device: " +:+ deviceId); error];;
       throw error).

Definition getPairedDevices : M Val :=
  try_catch
    (pairedDevices ← native GetBondedDevices RN_getBondedDevices;
     mret pairedDevices)
    (fun err =>
       console Error [VStr "Error getting paired devices"; err];;
       mret (VArray [])).

Definition getConnectedDevice : M Val :=
  try_catch
    (connectedDevices ← native GetConnectedDevices RN_getConnectedDevices;
     mret connectedDevices)
    (fun err =>
       console Error [VStr "Error getting connected devices"; err];;
       mret (VArray [])).

Definition getBondedDevices : M Val :=
  try_catch
    (bondedDevices ← native GetBondedDevices RN_getBondedDevices;
     mret bondedDevices)
    (fun error =>
       console Error [VStr "Error fetching bonded devices:"; error];;
       throw (VError "Failed to fetch bonded devices")).

Definition onBluetoothEnabled (callback : nat) : M Subscription :=
  subscription ← native (OnBluetoothEnabled callback)
                   (fun b => RN_onBluetoothEnabled b callback);
  mret subscription.

Definition onBluetoothDisabled (callback : nat) : M Subscription :=
  subscription ← native (OnBluetoothDisabled callback)
                   (fun b => RN_onBluetoothDisabled b callback);
  mret subscription.

Definition onStateChanged (callback : nat) : M Subscription :=
  subscription ← native (OnStateChanged callback)
                   (fun b => RN_onStateChanged b callback);
  mret subscription.

Definition onDeviceConnected (callback : nat) : M Subscription :=
  subscription ← native (OnDeviceConnected callback)
                   (fun b => RN_onDeviceConnected b callback);
  mret subscription.

Definition onDeviceDisconnected (callback : nat) : M Subscription :=
  subscription ← native (OnDeviceDisconnected callback)
                   (fun b => RN_onDeviceDisconnected b callback);
  mret subscription.

Definition openBluetoothSettings : M Val :=
  try_catch
    (native OpenBluetoothSettings RN_openBluetoothSettings;;
     ToastAndroid_show "Bluetooth settings opened" SHORT;;
     mret VUndefined)
    (fun error =>
       console Error [VStr "Error opening Bluetooth settings:"; error];;
       throw (VError "Failed to open Bluetooth settings")).

Definition cleanupSubscriptions (subscriptions : list Subscription) : M Val :=
  Array_forEach Subscription_remove subscriptions;;
  mret VUndefined.

(** The device argument may be [null] at run time: [None]. *)
Definition read (device : option BluetoothDevice) : M Val :=
  try_catch
    (match device with
     | None => throw (VError "No device connected.")
     | Some d =>
         data ← native (DeviceRead (dev_address d)) (fun _ => dev_read d);
         console Log [VStr ("Data read from device: " +:+ js_to_string data)];;
         mret data
     end)
    (fun error =>
       console Error [VStr "Error reading data from device:"; error];;
       throw (VError "Failed to read data from device")).

Definition write (device : option BluetoothDevice) (data : string) : M Val :=
  try_catch
    (match device with
     | None => throw (VError "No device connected.")
     | Some d =>
         success ← native (DeviceWrite (dev_address d) data)
                     (fun _ => dev_write d data);
         when_ (truthy success)
           (console Log [VStr ("Data written to device: " +:+ data)]);;
         mret success
     end)
    (fun error =>
       console Error [VStr ("Error writing data to device: " +:+ data); error];;
       throw (VError "Failed to write data to device")).

Definition available (device : option BluetoothDevice) : M Val :=
  try_catch
    (match device with
     | None => throw (VError "No device connected.")
     | Some d =>
         bytesAvailable ← native (DeviceAvailable (dev_address d))
                            (fun _ => dev_available d);
         console Log
           [VStr ("Bytes available to read: " +:+ js_to_string bytesAvailable)];;
         mret bytesAvailable
     end)
    (fun error =>
       console Error [VStr "Error checking available bytes:"; error];;
       throw (VError "Failed to check available bytes")).

Definition clear (device : option BluetoothDevice) : M Val :=
  try_catch
    (match device with
     | None => throw (VError "No device connected.")
     | Some d =>
         cleared ← native (DeviceClear (dev_address d)) (fun _ => dev_clear d);
         console Log [VStr "Buffer cleared"];;
         mret cleared
     end)
    (fun error =>
       console Error [VStr "Error clearing buffer:"; error];;
       throw (VError "Failed to clear buffer")).

End Bluetooth.

(** ** Observations *)

(** How a call ends and what it emits, for a binding and a history. *)
Definition outcome {A} (m : M A) (b : Binding) (h : History) : Result A :=
  fst (m b h).
Definition emitted {A} (m : M A) (b : Binding) (h : History) : list Event :=
  snd (m b h).

Global Instance NativeCall_eq_dec : EqDecision NativeCall.
Proof. solve_decision. Defined.

Definition is_toast (e : Event) : bool :=
  match e with Toast _ _ => true | _ => false end.
Definition is_native (e : Event) : bool :=
  match e with Native _ => true | _ => false end.
Definition is_call (c : NativeCall) (e : Event) : bool :=
  match e with Native c' => bool_decide (c' = c) | _ => false end.

Definition toasts (es : list Event) : list Event := List.filter is_toast es.
Definition native_calls (es : list Event) : list Event := List.filter is_native es.
(** How many times the native call [c] was made. *)
Definition calls (c : NativeCall) (es : list Event) : nat :=
  length (List.filter (is_call c) es).

(** ** Sample bindings *)

(** A platform on which every call succeeds: permissions granted, Bluetooth
    on, devices answer. *)
Definition granted_all : gmap string string :=
  <[Permission.BLUETOOTH_SCAN := Permission.GRANTED]>
    (<[Permission.BLUETOOTH_CONNECT := Permission.GRANTED]>
       (<[Permission.ACCESS_FINE_LOCATION := Permission.GRANTED]> ∅)).

Definition sample_subscription (n : nat) : Subscription :=
  {| sub_id := n; sub_remove := fun _ => Resolved VUndefined |}.

Definition happy : Binding := {|
  PermissionsAndroid_requestMultiple := fun _ _ => Resolved granted_all;
  PermissionsAndroid_check := fun _ _ => Resolved true;
  Geolocation_getCurrentPosition := fun _ => GeoPosition;
  RN_isBluetoothEnabled := fun _ => Resolved (VBool true);
  RN_requestBluetoothEnabled := fun _ => Resolved (VBool true);
  RN_startDiscovery := fun _ => Resolved (VArray [VDevice "00:11:22:33:44:55"]);
  RN_cancelDiscovery := fun _ => Resolved (VBool true);
  RN_connectToDevice := fun id _ _ => Resolved (VDevice id);
  RN_disconnectFromDevice := fun _ _ => Resolved (VBool true);
  RN_pairDevice := fun id _ => Resolved (VDevice id);
  RN_unpairDevice := fun _ _ => Resolved (VBool true);
  RN_getBondedDevices := fun _ => Resolved (VArray []);
  RN_getConnectedDevices := fun _ => Resolved (VArray []);
  RN_onBluetoothEnabled := fun cb _ => Resolved (sample_subscription cb);
  RN_onBluetoothDisabled := fun cb _ => Resolved (sample_subscription cb);
  RN_onStateChanged := fun cb _ => Resolved (sample_subscription cb);
  RN_onDeviceConnected := fun cb _ => Resolved (sample_subscription cb);
  RN_onDeviceDisconnected := fun cb _ => Resolved (sample_subscription cb);
  RN_openBluetoothSettings := fun _ => Resolved VUndefined
|}.

(** [happy] with some of the Bluetooth calls replaced. *)
Definition with_bluetooth
    (enabled enable discovery cancel settings : Result Val)
    (on_device : string -> Result Val) : Binding := {|
  PermissionsAndroid_requestMultiple := PermissionsAndroid_requestMultiple happy;
  PermissionsAndroid_check := PermissionsAndroid_check happy;
  Geolocation_getCurrentPosition := Geolocation_getCurrentPosition happy;
  RN_isBluetoothEnabled := fun _ => enabled;
  RN_requestBluetoothEnabled := fun _ => enable;
  RN_startDiscovery := fun _ => discovery;
  RN_cancelDiscovery := fun _ => cancel;
  RN_connectToDevice := fun id _ _ => on_device id;
  RN_disconnectFromDevice := fun id _ => on_device id;
  RN_pairDevice := fun id _ => on_device id;
  RN_unpairDevice := fun id _ => on_device id;
  RN_getBondedDevices := RN_getBondedDevices happy;
  RN_getConnectedDevices := RN_getConnectedDevices happy;
  RN_onBluetoothEnabled := RN_onBluetoothEnabled happy;
  RN_onBluetoothDisabled := RN_onBluetoothDisabled happy;
  RN_onStateChanged := RN_onStateChanged happy;
  RN_onDeviceConnected := RN_onDeviceConnected happy;
  RN_onDeviceDisconnected := RN_onDeviceDisconnected happy;
  RN_openBluetoothSettings := fun _ => settings
|}.

(** [happy] with the permission calls replaced. *)
Definition with_permissions
    (request : Result (gmap string string)) (check : string -> Result bool)
  : Binding := {|
  PermissionsAndroid_requestMultiple := fun _ _ => request;
  PermissionsAndroid_check := fun p _ => check p;
  Geolocation_getCurrentPosition := Geolocation_getCurrentPosition happy;
  RN_isBluetoothEnabled := RN_isBluetoothEnabled happy;
  RN_requestBluetoothEnabled := RN_requestBluetoothEnabled happy;
  RN_startDiscovery := RN_startDiscovery happy;
  RN_cancelDiscovery := RN_cancelDiscovery happy;
  RN_connectToDevice := RN_connectToDevice happy;
  RN_disconnectFromDevice := RN_disconnectFromDevice happy;
  RN_pairDevice := RN_pairDevice happy;
  RN_unpairDevice := RN_unpairDevice happy;
  RN_getBondedDevices := RN_getBondedDevices happy;
  RN_getConnectedDevices := RN_getConnectedDevices happy;
  RN_onBluetoothEnabled := RN_onBluetoothEnabled happy;
  RN_onBluetoothDisabled := RN_onBluetoothDisabled happy;
  RN_onStateChanged := RN_onStateChanged happy;
  RN_onDeviceConnected := RN_onDeviceConnected happy;
  RN_onDeviceDisconnected := RN_onDeviceDisconnected happy;
  RN_openBluetoothSettings := RN_openBluetoothSettings happy
|}.

(** Bluetooth is on but the settings screen cannot be opened. *)
Definition settings_unavailable : Binding :=
  with_bluetooth (Resolved (VBool true)) (Resolved (VBool true))
    (Resolved (VArray [])) (Resolved (VBool true))
    (Rejected (VError "no activity")) (fun id => Resolved (VDevice id)).

(** The enabled check itself fails. *)
Definition adapter_missing : Binding :=
  with_bluetooth (Rejected (VError "adapter missing")) (Resolved (VBool true))
    (Resolved (VArray [])) (Resolved (VBool true)) (Resolved VUndefined)
    (fun id => Resolved (VDevice id)).

(** Bluetooth is off and the user refuses to turn it on. *)
Definition bluetooth_off_refused : Binding :=
  with_bluetooth (Resolved (VBool false)) (Rejected (VError "refused"))
    (Resolved (VArray [])) (Resolved (VBool true)) (Resolved VUndefined)
    (fun id => Resolved (VDevice id)).

(** A subscription whose [remove] throws. *)
Definition failing_subscription (n : nat) : Subscription :=
  {| sub_id := n; sub_remove := fun _ => Rejected (VError "remove failed") |}.

(** A device that answers every primitive. *)
Definition sample_device : BluetoothDevice := {|
  dev_address := "00:11:22:33:44:55";
  dev_read := fun _ => Resolved (VStr "pong");
  dev_write := fun _ _ => Resolved (VBool true);
  dev_available := fun _ => Resolved (VNum 4);
  dev_clear := fun _ => Resolved (VBool true)
|}.

(** ** The exported operations as one family *)

Inductive Op : Type :=
| RequestAllPermissions
| CheckAllPermissions
| RequestLocationService
| IsEnabled
| Enable
| StartDiscoveryOp
| StopDiscovery
| Connect (deviceId : string)
| Disconnect (deviceId : string)
| Pair (deviceId : string)
| UnPair (deviceId : string)
| GetPairedDevices
| GetConnectedDevice
| GetBonded
| OnEnabled (callback : nat)
| OnDisabled (callback : nat)
| OnState (callback : nat)
| OnConnected (callback : nat)
| OnDisconnected (callback : nat)
| OpenSettings
| CleanupSubscriptions (subscriptions : list Subscription)
| Read (device : option BluetoothDevice)
| Write (device : option BluetoothDevice) (data : string)
| Available (device : option BluetoothDevice)
| Clear (device : option BluetoothDevice).

(** What a call of the operation emits. *)
Definition op_emitted (op : Op) (b : Binding) (h : History) : list Event :=
  match op with
  | RequestAllPermissions => emitted Permission.requestAllPermissions b h
  | CheckAllPermissions => emitted Permission.checkAllPermissions b h
  | RequestLocationService => emitted Permission.requestLocationService b h
  | IsEnabled => emitted Bluetooth.isBluetoothEnabled b h
  | Enable => emitted Bluetooth.enableBluetooth b h
  | StartDiscoveryOp => emitted Bluetooth.startDiscovery b h
  | StopDiscovery => emitted Bluetooth.stopDiscovery b h
  | Connect deviceId => emitted (Bluetooth.connectDevice deviceId) b h
  | Disconnect deviceId => emitted (Bluetooth.disconnectDevice deviceId) b h
  | Pair deviceId => emitted (Bluetooth.pairDevice deviceId) b h
  | UnPair deviceId => emitted (Bluetooth.unPairDevice deviceId) b h
  | GetPairedDevices => emitted Bluetooth.getPairedDevices b h
  | GetConnectedDevice => emitted Bluetooth.getConnectedDevice b h
  | GetBonded => emitted Bluetooth.getBondedDevices b h
  | OnEnabled callback => emitted (Bluetooth.onBluetoothEnabled callback) b h
  | OnDisabled callback => emitted (Bluetooth.onBluetoothDisabled callback) b h
  | OnState callback => emitted (Bluetooth.onStateChanged callback) b h
  | OnConnected callback => emitted (Bluetooth.onDeviceConnected callback) b h
  | OnDisconnected callback =>
      emitted (Bluetooth.onDeviceDisconnected callback) b h
  | OpenSettings => emitted Bluetooth.openBluetoothSettings b h
  | CleanupSubscriptions subscriptions =>
      emitted (Bluetooth.cleanupSubscriptions subscriptions) b h
  | Read device => emitted (Bluetooth.read device) b h
  | Write device data => emitted (Bluetooth.write device data) b h
  | Available device => emitted (Bluetooth.available device) b h
  | Clear device => emitted (Bluetooth.clear device) b h
  end.

(** ** Vocabulary of the statements *)

(** The three checks, in the order and at the histories at which
    [checkAllPermissions] makes them. *)
Definition check_scan (b : Binding) (h : History) : Result bool :=
  PermissionsAndroid_check b Permission.BLUETOOTH_SCAN h.
Definition check_connect (b : Binding) (h : History) : Result bool :=
  PermissionsAndroid_check b Permission.BLUETOOTH_CONNECT
    (h ++ [Native (Check Permission.BLUETOOTH_SCAN)]).
Definition check_location (b : Binding) (h : History) : Result bool :=
  PermissionsAndroid_check b Permission.ACCESS_FINE_LOCATION
    (h ++ [Native (Check Permission.BLUETOOTH_SCAN);
           Native (Check Permission.BLUETOOTH_CONNECT)]).

(** The platform reports every permission of the set as granted. *)
Definition all_checks_granted (b : Binding) (h : History) : bool :=
  match check_scan b h, check_connect b h, check_location b h with
  | Resolved true, Resolved true, Resolved true => true
  | _, _, _ => false
  end.

Definition check_calls : list Event :=
  [Native (Check Permission.BLUETOOTH_SCAN);
   Native (Check Permission.BLUETOOTH_CONNECT);
   Native (Check Permission.ACCESS_FINE_LOCATION)].

(** The answer to [requestMultiple] grants every permission of the set. *)
Definition request_grants_all (b : Binding) (h : History) : Prop :=
  exists granted,
    PermissionsAndroid_requestMultiple b Permission.ALL_PERMISSIONS h =
      Resolved granted /\
    forall p, p ∈ Permission.ALL_PERMISSIONS ->
              granted !! p = Some Permission.GRANTED.

(** A native call failed: it rejected, or resolved to a falsy value. *)
Definition failed (r : Result Val) : bool :=
  match r with
  | Resolved v => negb (truthy v)
  | Rejected _ => true
  end.

Definition rejected {A} (r : Result A) : bool :=
  match r with
  | Resolved _ => false
  | Rejected _ => true
  end.

(** The release of one subscription, as an event. *)
Definition release (s : Subscription) : Event :=
  Native (SubscriptionRemove (sub_id s)).

(** The error created by [new Error("No device connected.")]. *)
Definition no_device_connected : Val := VError "No device connected.".

(** The calls on which the code shows a toast: a failed cancel in
    [stopDiscovery], a failed connection in [connectDevice], and the settings
    screen having opened in [openBluetoothSettings]. *)
Definition toast_shown (op : Op) (b : Binding) (h : History) : bool :=
  match op with
  | StopDiscovery => rejected (RN_cancelDiscovery b h)
  | Connect deviceId => failed (RN_connectToDevice b deviceId CR h)
  | OpenSettings => negb (rejected (RN_openBluetoothSettings b h))
  | _ => false
  end.

(** Whether a call of the operation ends in a rejection (for a synchronous
    operation: in an exception). *)
Definition op_rejects (op : Op) (b : Binding) (h : History) : bool :=
  match op with
  | RequestAllPermissions => rejected (outcome Permission.requestAllPermissions b h)
  | CheckAllPermissions => rejected (outcome Permission.checkAllPermissions b h)
  | RequestLocationService =>
      rejected (outcome Permission.requestLocationService b h)
  | IsEnabled => rejected (outcome Bluetooth.isBluetoothEnabled b h)
  | Enable => rejected (outcome Bluetooth.enableBluetooth b h)
  | StartDiscoveryOp => rejected (outcome Bluetooth.startDiscovery b h)
  | StopDiscovery => rejected (outcome Bluetooth.stopDiscovery b h)
  | Connect deviceId => rejected (outcome (Bluetooth.connectDevice deviceId) b h)
  | Disconnect deviceId =>
      rejected (outcome (Bluetooth.disconnectDevice deviceId) b h)
  | Pair deviceId => rejected (outcome (Bluetooth.pairDevice deviceId) b h)
  | UnPair deviceId => rejected (outcome (Bluetooth.unPairDevice deviceId) b h)
  | GetPairedDevices => rejected (outcome Bluetooth.getPairedDevices b h)
  | GetConnectedDevice => rejected (outcome Bluetooth.getConnectedDevice b h)
  | GetBonded => rejected (outcome Bluetooth.getBondedDevices b h)
  | OnEnabled callback =>
      rejected (outcome (Bluetooth.onBluetoothEnabled callback) b h)
  | OnDisabled callback =>
      rejected (outcome (Bluetooth.onBluetoothDisabled callback) b h)
  | OnState callback => rejected (outcome (Bluetooth.onStateChanged callback) b h)
  | OnConnected callback =>
      rejected (outcome (Bluetooth.onDeviceConnected callback) b h)
  | OnDisconnected callback =>
      rejected (outcome (Bluetooth.onDeviceDisconnected callback) b h)
  | OpenSettings => rejected (outcome Bluetooth.openBluetoothSettings b h)
  | CleanupSubscriptions subscriptions =>
      rejected (outcome (Bluetooth.cleanupSubscriptions subscriptions) b h)
  | Read device => rejected (outcome (Bluetooth.read device) b h)
  | Write device data => rejected (outcome (Bluetooth.write device data) b h)
  | Available device => rejected (outcome (Bluetooth.available device) b h)
  | Clear device => rejected (outcome (Bluetooth.clear device) b h)
  end.

(** The operations whose body is one [try] with a handler that ends in a
    [return]: they report a failure and hand back a sentinel. *)
Definition swallows (op : Op) : bool :=
  match op with
  | RequestAllPermissions | CheckAllPermissions
  | StopDiscovery | Connect _ | GetPairedDevices | GetConnectedDevice => true
  | _ => false
  end.

(** The operations that make their native calls one after the other without
    a loop over caller data. *)
Definition loop_free (op : Op) : bool :=
  match op with
  | CleanupSubscriptions _ => false
  | _ => true
  end.

(** The permissions paired with a [false] answer, in order. *)
Definition denied (answers : list (string * bool)) : list string :=
  map fst (List.filter (fun pa => negb (snd pa)) answers).

(** The text of the warning for a list of permissions. *)
Definition not_granted_report (permissions : list string) : string :=
  String.concat LF
    (map (fun permission => permission +:+ " is not granted.") permissions).

(** The connect permission is denied, the other two are granted. *)
Definition connect_denied : Binding :=
  with_permissions
    (Resolved (<[Permission.BLUETOOTH_SCAN := Permission.GRANTED]>
                 (<[Permission.BLUETOOTH_CONNECT := "denied"]>
                    (<[Permission.ACCESS_FINE_LOCATION := Permission.GRANTED]>
                       ∅))))
    (fun p => Resolved (negb (String.eqb p Permission.BLUETOOTH_CONNECT))).

(** [requestMultiple] answers without an entry for the location permission. *)
Definition location_missing : Binding :=
  with_permissions
    (Resolved (<[Permission.BLUETOOTH_SCAN := Permission.GRANTED]>
                 (<[Permission.BLUETOOTH_CONNECT := Permission.GRANTED]> ∅)))
    (fun _ => Resolved true).

(** Discovery finds a device but cancelling it fails. *)
Definition cancel_fails : Binding :=
  with_bluetooth (Resolved (VBool true)) (Resolved (VBool true))
    (Resolved (VArray [VDevice "00:11:22:33:44:55"]))
    (Rejected (VError "cancel failed")) (Resolved VUndefined)
    (fun id => Resolved (VDevice id)).

(** Discovery itself fails; cancelling works. *)
Definition discovery_fails : Binding :=
  with_bluetooth (Resolved (VBool true)) (Resolved (VBool true))
    (Rejected (VError "scan failed")) (Resolved (VBool true))
    (Resolved VUndefined) (fun id => Resolved (VDevice id)).

(** No device can be reached: every call that names a device fails. *)
Definition unreachable_devices : Binding :=
  with_bluetooth (Resolved (VBool true)) (Resolved (VBool true))
    (Resolved (VArray [])) (Resolved (VBool true)) (Resolved VUndefined)
    (fun _ => Rejected (VError "unreachable")).

(** A device that refuses writes without throwing. *)
Definition write_refusing_device : BluetoothDevice := {|
  dev_address := "00:11:22:33:44:77";
  dev_read := fun _ => Resolved (VStr "");
  dev_write := fun _ _ => Resolved (VBool false);
  dev_available := fun _ => Resolved (VNum 0);
  dev_clear := fun _ => Resolved (VBool false)
|}.

(** The history at which [startDiscovery] calls the discovery operation when
    Bluetooth is on and every permission is granted: the enabled check and
    the three permission checks have been made. *)
Definition discovery_history (h : History) : History :=
  (h ++ [Native IsBluetoothEnabled]) ++ check_calls.

(** What the discovery attempt of that run emits: the call and, when it
    fails, the console line with its error. *)
Definition discovery_events (b : Binding) (h : History) : list Event :=
  match RN_startDiscovery b (discovery_history h) with
  | Resolved _ => [Native StartDiscovery]
  | Rejected error => [Native StartDiscovery; Console Error [error]]
  end.

(** The history at which the cleanup step of that run calls the cancel
    operation. *)
Definition cancel_history (b : Binding) (h : History) : History :=
  discovery_history h ++ discovery_events b h.

Definition is_console (e : Event) : bool :=
  match e with Console _ _ => true | _ => false end.
Definition console_lines (es : list Event) : list Event :=
  List.filter is_console es.

(** Cancelling works as long as no discovery has been started, and fails
    afterwards. *)
Definition busy_cancel : Binding := {|
  PermissionsAndroid_requestMultiple := PermissionsAndroid_requestMultiple happy;
  PermissionsAndroid_check := PermissionsAndroid_check happy;
  Geolocation_getCurrentPosition := Geolocation_getCurrentPosition happy;
  RN_isBluetoothEnabled := RN_isBluetoothEnabled happy;
  RN_requestBluetoothEnabled := RN_requestBluetoothEnabled happy;
  RN_startDiscovery := RN_startDiscovery happy;
  RN_cancelDiscovery := fun h =>
    if existsb (is_call StartDiscovery) h then Rejected (VError "busy")
    else Resolved (VBool true);
  RN_connectToDevice := RN_connectToDevice happy;
  RN_disconnectFromDevice := RN_disconnectFromDevice happy;
  RN_pairDevice := RN_pairDevice happy;
  RN_unpairDevice := RN_unpairDevice happy;
  RN_getBondedDevices := RN_getBondedDevices happy;
  RN_getConnectedDevices := RN_getConnectedDevices happy;
  RN_onBluetoothEnabled := RN_onBluetoothEnabled happy;
  RN_onBluetoothDisabled := RN_onBluetoothDisabled happy;
  RN_onStateChanged := RN_onStateChanged happy;
  RN_onDeviceConnected := RN_onDeviceConnected happy;
  RN_onDeviceDisconnected := RN_onDeviceDisconnected happy;
  RN_openBluetoothSettings := RN_openBluetoothSettings happy
|}.

(** The connect permission is denied and the location check fails. *)
Definition location_check_fails : Binding :=
  with_permissions (Resolved granted_all)
    (fun p =>
       if String.eqb p Permission.ACCESS_FINE_LOCATION
       then Rejected (VError "binder died")
       else Resolved (negb (String.eqb p Permission.BLUETOOTH_CONNECT))).

(** A device that cannot be read but takes writes. *)
Definition unreadable_device : BluetoothDevice := {|
  dev_address := "00:11:22:33:44:88";
  dev_read := fun _ => Rejected (VError "stream closed");
  dev_write := fun _ _ => Resolved (VBool true);
  dev_available := fun _ => Resolved (VNum 0);
  dev_clear := fun _ => Resolved (VBool true)
|}.

(** ** Sanity checks on concrete platforms *)

Example startDiscovery_happy :
  Bluetooth.startDiscovery happy [] =
    (Resolved (VArray [VDevice "00:11:22:33:44:55"]),
     [Native IsBluetoothEnabled;
      Native (Check Permission.BLUETOOTH_SCAN);
      Native (Check Permission.BLUETOOTH_CONNECT);
      Native (Check Permission.ACCESS_FINE_LOCATION);
      Native StartDiscovery;
      Native CancelDiscovery;
      Console Log [VStr "Discovery stopped"]]).
Proof. reflexivity. Qed.

Example requestAll_happy :
  Permission.requestAllPermissions happy [] =
    (Resolved true,
     [Native (RequestMultiple Permission.ALL_PERMISSIONS);
      Console Log [VStr "ALL GRANTED"; VBool true]]).
Proof. vm_compute. reflexivity. Qed.

Example checkAll_one_denied :
  Permission.checkAllPermissions
    (with_permissions (Resolved granted_all)
       (fun p => Resolved (negb (String.eqb p Permission.BLUETOOTH_CONNECT))))
    [] =
    (Resolved false,
     [Native (Check Permission.BLUETOOTH_SCAN);
      Native (Check Permission.BLUETOOTH_CONNECT);
      Native (Check Permission.ACCESS_FINE_LOCATION);
      Console Warn
        [VStr "android.permission.BLUETOOTH_CONNECT is not granted."]]).
Proof. vm_compute. reflexivity. Qed.

Example checkAll_one_fails :
  Permission.checkAllPermissions
    (with_permissions (Resolved granted_all)
       (fun p => if String.eqb p Permission.BLUETOOTH_CONNECT
                 then Rejected (VError "boom") else Resolved true))
    [] =
    (Resolved false,
     [Native (Check Permission.BLUETOOTH_SCAN);
      Native (Check Permission.BLUETOOTH_CONNECT);
      Native (Check Permission.ACCESS_FINE_LOCATION);
      Console Error [VStr "Error checking permissions"; VError "boom"]]).
Proof. vm_compute. reflexivity. Qed.

(** ** Running the embedding *)

(** Unfolds the monad's combinators, leaving the oracle's answers. *)
Ltac run :=
  cbv [outcome emitted mbind M_bind mret M_ret native promise await console
       ToastAndroid_show try_catch try_finally throw when_ Array_map
       Array_forEach Subscription_remove];
  cbn [app fst snd].

Ltac tidy := rewrite <- ?app_assoc, ?app_nil_r; cbn [app fst snd].

(** ** The permission gateway *)

Section PermissionGateway.
Import Permission.

Lemma is_granted_spec granted p :
  is_granted granted p = true <-> granted !! p = Some GRANTED.
Proof. unfold is_granted. rewrite bool_decide_eq_true. reflexivity. Qed.

Lemma all_granted_spec granted :
  forallb (is_granted granted) ALL_PERMISSIONS = true <->
  forall p, p ∈ ALL_PERMISSIONS -> granted !! p = Some GRANTED.
Proof.
  rewrite forallb_forall. split; intros H p Hp.
  - apply is_granted_spec, H, list_elem_of_In, Hp.
  - apply is_granted_spec, H, list_elem_of_In, Hp.
Qed.

(** [requestAllPermissions] always resolves, and to the conjunction of the
    three answers. *)
Lemma requestAllPermissions_outcome b h :
  outcome requestAllPermissions b h =
    Resolved
      match PermissionsAndroid_requestMultiple b ALL_PERMISSIONS h with
      | Resolved granted => forallb (is_granted granted) ALL_PERMISSIONS
      | Rejected _ => false
      end.
Proof.
  unfold requestAllPermissions. run.
  destruct (PermissionsAndroid_requestMultiple b ALL_PERMISSIONS h)
    as [granted|e]; [|reflexivity].
  destruct (forallb (is_granted granted) ALL_PERMISSIONS); reflexivity.
Qed.

(** [checkAllPermissions] always resolves, to [true] exactly when the three
    checks resolve to [true]; it makes the three checks first, then at most
    one console line. *)
Lemma checkAllPermissions_run b h :
  exists line,
    checkAllPermissions b h =
      (Resolved (all_checks_granted b h), check_calls ++ line) /\
    native_calls line = [] /\ toasts line = [].
Proof.
  unfold checkAllPermissions, all_checks_granted, check_scan, check_connect,
    check_location, ALL_PERMISSIONS.
  run. tidy.
  destruct (PermissionsAndroid_check b BLUETOOTH_SCAN h) as [[]|e1];
    destruct (PermissionsAndroid_check b BLUETOOTH_CONNECT _) as [[]|e2];
    destruct (PermissionsAndroid_check b ACCESS_FINE_LOCATION _) as [[]|e3];
    cbn; eexists; (split; [reflexivity|split; reflexivity]).
Qed.

End PermissionGateway.

(** C1.  Whatever the platform answers for the three permissions (Bluetooth
    scan, Bluetooth connect, fine location), [requestAllPermissions] and
    [checkAllPermissions] resolve, and resolve to [true] if and only if
    every permission of the set is granted; on a denial or on a failure of
    the underlying call they resolve to [false]; they never reject. *)
Theorem permissions_true_iff_all_granted (b : Binding) (h : History) :
  (exists v : bool,
      outcome Permission.requestAllPermissions b h = Resolved v /\
      (v = true <-> request_grants_all b h)) /\
  (exists v : bool,
      outcome Permission.checkAllPermissions b h = Resolved v /\
      (v = true <->
       check_scan b h = Resolved true /\
       check_connect b h = Resolved true /\
       check_location b h = Resolved true)).
Proof.
  split.
  - eexists. split; [apply requestAllPermissions_outcome|].
    unfold request_grants_all.
    destruct (PermissionsAndroid_requestMultiple b Permission.ALL_PERMISSIONS h)
      as [granted|e].
    + rewrite all_granted_spec. split.
      * intros H. exists granted. split; [reflexivity|exact H].
      * intros (g & Hg & H). injection Hg as <-. exact H.
    + split; [discriminate|]. intros (g & Hg & _). discriminate.
  - destruct (checkAllPermissions_run b h) as (line & Hrun & _).
    exists (all_checks_granted b h). unfold outcome. rewrite Hrun.
    split; [reflexivity|]. unfold all_checks_granted.
    destruct (check_scan b h) as [[]|]; destruct (check_connect b h) as [[]|];
      destruct (check_location b h) as [[]|];
      split; try discriminate; try tauto;
      intros (H1 & H2 & H3); discriminate.
Qed.

(** ** Bluetooth: enabling and discovery *)

Lemma bind_run {A B} (m : M A) (f : A -> M B) (b : Binding) (h : History) :
  (m ≫= f) b h =
    match m b h with
    | (Resolved a, es) => let '(r, es') := f a b (h ++ es) in (r, es ++ es')
    | (Rejected e, es) => (Rejected e, es)
    end.
Proof. reflexivity. Qed.

Lemma isBluetoothEnabled_run b h :
  Bluetooth.isBluetoothEnabled b h =
    match RN_isBluetoothEnabled b h with
    | Resolved v => (Resolved v, [Native IsBluetoothEnabled])
    | Rejected e =>
        (Rejected (VError "Failed to check if Bluetooth is enabled"),
         [Native IsBluetoothEnabled; Console Error [e]])
    end.
Proof.
  unfold Bluetooth.isBluetoothEnabled. run.
  destruct (RN_isBluetoothEnabled b h); reflexivity.
Qed.

Lemma enableBluetooth_run b h :
  Bluetooth.enableBluetooth b h =
    match RN_requestBluetoothEnabled b h with
    | Resolved _ => (Resolved VUndefined, [Native RequestBluetoothEnabled])
    | Rejected e =>
        (Rejected (VError "Failed to enable Bluetooth"),
         [Native RequestBluetoothEnabled;
          Console Error [VStr "Error enabling Bluetooth"; e]])
    end.
Proof.
  unfold Bluetooth.enableBluetooth. run.
  destruct (RN_requestBluetoothEnabled b h); reflexivity.
Qed.

(** The three ways [startDiscovery] goes on once both checks are done. *)
Lemma startDiscovery_run b h :
  Bluetooth.startDiscovery b h =
    match Bluetooth.isBluetoothEnabled b h with
    | (Rejected e, es1) => (Rejected e, es1)
    | (Resolved isBLenabled, es1) =>
        let h1 := h ++ es1 in
        let es2 := emitted Permission.checkAllPermissions b h1 in
        let h2 := h1 ++ es2 in
        if negb (truthy isBLenabled) then
          (outcome Bluetooth.enableBluetooth b h2,
           es1 ++ es2 ++ emitted Bluetooth.enableBluetooth b h2)
        else if negb (all_checks_granted b h1) then
          (Resolved (VBool false), es1 ++ es2)
        else
          let discovery := RN_startDiscovery b h2 in
          let es3 :=
            match discovery with
            | Resolved _ => [Native StartDiscovery]
            | Rejected e => [Native StartDiscovery; Console Error [e]]
            end in
          match RN_cancelDiscovery b (h2 ++ es3) with
          | Resolved _ =>
              (Resolved match discovery with
                        | Resolved unpaired => unpaired
                        | Rejected e => e
                        end,
               es1 ++ es2 ++ es3 ++
               [Native CancelDiscovery; Console Log [VStr "Discovery stopped"]])
          | Rejected e =>
              (Rejected e, es1 ++ es2 ++ es3 ++ [Native CancelDiscovery])
          end
    end.
Proof.
  unfold Bluetooth.startDiscovery. rewrite bind_run.
  destruct (Bluetooth.isBluetoothEnabled b h) as [[v|e] es1]; [|reflexivity].
  rewrite bind_run. unfold emitted.
  destruct (checkAllPermissions_run b (h ++ es1)) as (line & -> & _).
  cbn [fst snd].
  generalize (check_calls ++ line). intros es2.
  destruct (truthy v); cbn [negb].
  - destruct (all_checks_granted b (h ++ es1)); cbn [negb].
    + run.
      destruct (RN_startDiscovery b ((h ++ es1) ++ es2)) as [u|e];
        cbn [app]; tidy.
      * destruct (RN_cancelDiscovery b _); tidy; reflexivity.
      * destruct (RN_cancelDiscovery b _); tidy; reflexivity.
    + run. tidy. reflexivity.
  - rewrite bind_run. unfold outcome.
    destruct (Bluetooth.enableBluetooth b ((h ++ es1) ++ es2)) as [[u|e] es3];
      run; tidy; reflexivity.
Qed.

Lemma calls_app c es es' : calls c (es ++ es') = (calls c es + calls c es')%nat.
Proof. unfold calls. rewrite List.filter_app, length_app. reflexivity. Qed.

Lemma calls_cons c e es :
  calls c (e :: es) = ((if is_call c e then 1 else 0) + calls c es)%nat.
Proof. unfold calls. cbn [List.filter]. destruct (is_call c e); reflexivity. Qed.

Lemma calls_no_native c es : native_calls es = [] -> calls c es = 0%nat.
Proof.
  unfold calls, native_calls. induction es as [|e es IH]; [reflexivity|].
  destruct e; cbn [List.filter is_native is_call]; try discriminate; exact IH.
Qed.

Lemma toasts_app es es' : toasts (es ++ es') = toasts es ++ toasts es'.
Proof. apply List.filter_app. Qed.

Lemma calls_check_calls c :
  (forall p, c <> Check p) -> calls c check_calls = 0%nat.
Proof.
  intros Hc. unfold check_calls. rewrite !calls_cons. cbn [is_call].
  rewrite !bool_decide_eq_false_2; [reflexivity| | |]; intros E; eapply Hc; eauto.
Qed.

(** What [checkAllPermissions] emits holds no call other than the checks. *)
Lemma calls_checkAllPermissions c b h :
  (forall p, c <> Check p) ->
  calls c (emitted Permission.checkAllPermissions b h) = 0%nat.
Proof.
  intros Hc. unfold emitted.
  destruct (checkAllPermissions_run b h) as (line & -> & Hline & _).
  cbn [snd]. rewrite calls_app, calls_check_calls, calls_no_native; done.
Qed.

(** C2.  In a run of [startDiscovery] with Bluetooth enabled and every
    permission granted, the discovery is attempted once and the
    cancel-discovery step runs exactly once, after the attempt, whether the
    discovery call resolves or throws (its error is then the value returned). *)
Theorem startDiscovery_cancels_exactly_once
    (b : Binding) (h : History) (isBLenabled : Val) :
  RN_isBluetoothEnabled b h = Resolved isBLenabled ->
  truthy isBLenabled = true ->
  all_checks_granted b (h ++ [Native IsBluetoothEnabled]) = true ->
  calls StartDiscovery (emitted Bluetooth.startDiscovery b h) = 1%nat /\
  calls CancelDiscovery (emitted Bluetooth.startDiscovery b h) = 1%nat /\
  exists before between after,
    emitted Bluetooth.startDiscovery b h =
      before ++ Native StartDiscovery :: between ++
      Native CancelDiscovery :: after.
Proof.
  intros Hen Hv Hp.
  change (emitted Bluetooth.startDiscovery b h)
    with (snd (Bluetooth.startDiscovery b h)).
  rewrite startDiscovery_run, isBluetoothEnabled_run, Hen. cbv zeta.
  rewrite Hv, Hp. cbn [negb].
  set (es2 := emitted Permission.checkAllPermissions b _).
  assert (H2 : forall c, (forall p, c <> Check p) -> calls c es2 = 0%nat)
    by (intros c Hc; apply calls_checkAllPermissions, Hc).
  destruct (RN_startDiscovery b _) as [u|e];
    destruct (RN_cancelDiscovery b _) as [u'|e']; cbn [snd];
    rewrite !calls_app, !H2 by done; (split; [reflexivity|]);
    (split; [reflexivity|]).
  - exists ([Native IsBluetoothEnabled] ++ es2), [],
      [Console Log [VStr "Discovery stopped"]].
    rewrite <- !app_assoc. reflexivity.
  - exists ([Native IsBluetoothEnabled] ++ es2), [], [].
    rewrite <- !app_assoc. reflexivity.
  - exists ([Native IsBluetoothEnabled] ++ es2), [Console Error [e]],
      [Console Log [VStr "Discovery stopped"]].
    rewrite <- !app_assoc. reflexivity.
  - exists ([Native IsBluetoothEnabled] ++ es2), [Console Error [e]], [].
    rewrite <- !app_assoc. reflexivity.
Qed.

Lemma startDiscovery_cancels_exactly_once_witness :
  RN_isBluetoothEnabled happy [] = Resolved (VBool true) /\
  all_checks_granted happy [Native IsBluetoothEnabled] = true /\
  calls StartDiscovery (emitted Bluetooth.startDiscovery happy []) = 1%nat /\
  calls CancelDiscovery (emitted Bluetooth.startDiscovery happy []) = 1%nat.
Proof.
  split; [reflexivity|]. split; [reflexivity|].
  destruct (startDiscovery_cancels_exactly_once happy [] (VBool true))
    as (Hstart & Hcancel & _); [reflexivity..|].
  exact (conj Hstart Hcancel).
Defined.

(** The same run when the discovery call throws and when the cancel call
    throws as well. *)
Example startDiscovery_discovery_throws :
  Bluetooth.startDiscovery
    (with_bluetooth (Resolved (VBool true)) (Resolved (VBool true))
       (Rejected (VError "scan failed")) (Resolved (VBool true))
       (Resolved VUndefined) (fun id => Resolved (VDevice id))) [] =
    (Resolved (VError "scan failed"),
     [Native IsBluetoothEnabled;
      Native (Check Permission.BLUETOOTH_SCAN);
      Native (Check Permission.BLUETOOTH_CONNECT);
      Native (Check Permission.ACCESS_FINE_LOCATION);
      Native StartDiscovery;
      Console Error [VError "scan failed"];
      Native CancelDiscovery;
      Console Log [VStr "Discovery stopped"]]).
Proof. reflexivity. Qed.

Example startDiscovery_cancel_throws :
  Bluetooth.startDiscovery
    (with_bluetooth (Resolved (VBool true)) (Resolved (VBool true))
       (Resolved (VArray [])) (Rejected (VError "cancel failed"))
       (Resolved VUndefined) (fun id => Resolved (VDevice id))) [] =
    (Rejected (VError "cancel failed"),
     [Native IsBluetoothEnabled;
      Native (Check Permission.BLUETOOTH_SCAN);
      Native (Check Permission.BLUETOOTH_CONNECT);
      Native (Check Permission.ACCESS_FINE_LOCATION);
      Native StartDiscovery;
      Native CancelDiscovery]).
Proof. reflexivity. Qed.

(** C3.  When the enabled check answers that Bluetooth is off,
    [startDiscovery] never calls the discovery operation (nor the cancel
    operation); after the two checks it makes the enable request of the
    binding, once, through [enableBluetooth], and it ends exactly as that
    call of [enableBluetooth] ends: rejected with the normalized error when
    the request is rejected, resolved with what [enableBluetooth] resolves
    with (always [undefined]) when the request is accepted. *)
Theorem startDiscovery_disabled_returns_enable_outcome
    (b : Binding) (h : History) (isBLenabled : Val) :
  RN_isBluetoothEnabled b h = Resolved isBLenabled ->
  truthy isBLenabled = false ->
  let h1 := h ++ [Native IsBluetoothEnabled] in
  let h2 := h1 ++ emitted Permission.checkAllPermissions b h1 in
  calls StartDiscovery (emitted Bluetooth.startDiscovery b h) = 0%nat /\
  calls CancelDiscovery (emitted Bluetooth.startDiscovery b h) = 0%nat /\
  calls RequestBluetoothEnabled (emitted Bluetooth.startDiscovery b h) = 1%nat /\
  emitted Bluetooth.startDiscovery b h =
    Native IsBluetoothEnabled ::
    emitted Permission.checkAllPermissions b h1 ++
    Native RequestBluetoothEnabled ::
    match RN_requestBluetoothEnabled b h2 with
    | Resolved _ => []
    | Rejected error =>
        [Console Error [VStr "Error enabling Bluetooth"; error]]
    end /\
  outcome Bluetooth.startDiscovery b h =
    outcome Bluetooth.enableBluetooth b h2 /\
  outcome Bluetooth.startDiscovery b h =
    match RN_requestBluetoothEnabled b h2 with
    | Resolved _ => Resolved VUndefined
    | Rejected _ => Rejected (VError "Failed to enable Bluetooth")
    end.
Proof.
  intros Hen Hv. cbv zeta.
  change (emitted Bluetooth.startDiscovery b h)
    with (snd (Bluetooth.startDiscovery b h)).
  change (outcome Bluetooth.startDiscovery b h)
    with (fst (Bluetooth.startDiscovery b h)).
  rewrite startDiscovery_run, isBluetoothEnabled_run, Hen. cbv zeta.
  rewrite Hv. cbn [negb fst snd].
  rewrite !calls_app, !calls_checkAllPermissions by done.
  unfold outcome, emitted. rewrite !enableBluetooth_run.
  destruct (RN_requestBluetoothEnabled b _); repeat split.
Qed.

Lemma startDiscovery_disabled_returns_enable_outcome_witness :
  RN_isBluetoothEnabled bluetooth_off_refused [] = Resolved (VBool false) /\
  calls StartDiscovery (emitted Bluetooth.startDiscovery bluetooth_off_refused [])
    = 0%nat /\
  calls RequestBluetoothEnabled
    (emitted Bluetooth.startDiscovery bluetooth_off_refused []) = 1%nat /\
  outcome Bluetooth.startDiscovery bluetooth_off_refused [] =
    Rejected (VError "Failed to enable Bluetooth").
Proof.
  split; [reflexivity|].
  destruct (startDiscovery_disabled_returns_enable_outcome
              bluetooth_off_refused [] (VBool false))
    as (Hstart & _ & Henable & _ & Hout & _); [reflexivity..|].
  split; [exact Hstart|]. split; [exact Henable|]. rewrite Hout. reflexivity.
Defined.

Example startDiscovery_disabled_enable_accepted :
  Bluetooth.startDiscovery
    (with_bluetooth (Resolved (VBool false)) (Resolved (VBool true))
       (Resolved (VArray [])) (Resolved (VBool true)) (Resolved VUndefined)
       (fun id => Resolved (VDevice id))) [] =
    (Resolved VUndefined,
     [Native IsBluetoothEnabled;
      Native (Check Permission.BLUETOOTH_SCAN);
      Native (Check Permission.BLUETOOTH_CONNECT);
      Native (Check Permission.ACCESS_FINE_LOCATION);
      Native RequestBluetoothEnabled]).
Proof. reflexivity. Qed.

(** C4 (what the code does).  [enableBluetooth] awaits the binding's enable
    call without returning its result: when the binding resolves with
    [true], the function resolves with [undefined]; when the binding rejects,
    it rejects with the normalized error. *)
Theorem enableBluetooth_drops_binding_result :
  RN_requestBluetoothEnabled happy [] = Resolved (VBool true) /\
  outcome Bluetooth.enableBluetooth happy [] = Resolved VUndefined /\
  forall b h,
    outcome Bluetooth.enableBluetooth b h =
      match RN_requestBluetoothEnabled b h with
      | Resolved _ => Resolved VUndefined
      | Rejected _ => Rejected (VError "Failed to enable Bluetooth")
      end.
Proof.
  split; [reflexivity|]. split; [reflexivity|].
  intros b h. unfold outcome. rewrite enableBluetooth_run.
  destruct (RN_requestBluetoothEnabled b h); reflexivity.
Qed.

(** C10 as stated fails when the enabled check itself throws: the call then
    rejects at once and no permission is checked. *)
Lemma startDiscovery_enabled_check_throws_skips_permissions :
  Bluetooth.startDiscovery adapter_missing [] =
    (Rejected (VError "Failed to check if Bluetooth is enabled"),
     [Native IsBluetoothEnabled; Console Error [VError "adapter missing"]]) /\
  ~ (exists rest,
       emitted Bluetooth.startDiscovery adapter_missing [] =
         Native IsBluetoothEnabled :: check_calls ++ rest).
Proof.
  split; [reflexivity|]. intros [rest H]. discriminate H.
Qed.

(** C10 (amended).  [startDiscovery] awaits the enabled check first.  When
    that check throws, the call rejects with the normalized error and nothing
    else happens.  Otherwise it awaits the permission check next, with its
    three native checks and its console report, before anything of a branch;
    with Bluetooth off, the permission check has run all the same and the call
    goes on with [enableBluetooth] whatever the permission check answered. *)
Theorem startDiscovery_checks_before_branch (b : Binding) (h : History) :
  match RN_isBluetoothEnabled b h with
  | Rejected e =>
      Bluetooth.startDiscovery b h =
        (Rejected (VError "Failed to check if Bluetooth is enabled"),
         [Native IsBluetoothEnabled; Console Error [e]])
  | Resolved isBLenabled =>
      let h1 := h ++ [Native IsBluetoothEnabled] in
      let permission := emitted Permission.checkAllPermissions b h1 in
      (exists report,
          permission = check_calls ++ report /\ native_calls report = []) /\
      (exists branch,
          emitted Bluetooth.startDiscovery b h =
            Native IsBluetoothEnabled :: permission ++ branch) /\
      (if truthy isBLenabled then True
       else
         Bluetooth.startDiscovery b h =
           (outcome Bluetooth.enableBluetooth b (h1 ++ permission),
            Native IsBluetoothEnabled :: permission ++
            emitted Bluetooth.enableBluetooth b (h1 ++ permission)))
  end.
Proof.
  pose proof (startDiscovery_run b h) as Hrun.
  rewrite isBluetoothEnabled_run in Hrun.
  destruct (RN_isBluetoothEnabled b h) as [v|e]; [|exact Hrun].
  cbv zeta in *. split; [|split].
  - unfold emitted.
    destruct (checkAllPermissions_run b (h ++ [Native IsBluetoothEnabled]))
      as (line & -> & Hline & _).
    exists line. split; [reflexivity|exact Hline].
  - unfold emitted at 1. rewrite Hrun.
    destruct (truthy v); cbn [negb].
    + destruct (all_checks_granted b _); cbn [negb].
      * destruct (RN_cancelDiscovery b _); cbn [snd app]; eexists; reflexivity.
      * exists []. cbn [snd app]. rewrite app_nil_r. reflexivity.
    + eexists. reflexivity.
  - destruct (truthy v); [exact I|]. exact Hrun.
Qed.

(** ** Bluetooth: connections and pairing *)

(** C5.  For every device id, the empty one included, [connectDevice]
    resolves: to the handle the binding resolved with when that is truthy,
    and to [false] when the binding resolves to a falsy value or rejects.
    It never rejects. *)
Theorem connectDevice_never_rejects
    (deviceId : string) (b : Binding) (h : History) :
  outcome (Bluetooth.connectDevice deviceId) b h =
    Resolved
      match RN_connectToDevice b deviceId CR h with
      | Resolved connected => if truthy connected then connected else VBool false
      | Rejected _ => VBool false
      end.
Proof.
  unfold Bluetooth.connectDevice. run.
  destruct (RN_connectToDevice b deviceId CR h) as [connected|e];
    [|reflexivity].
  destruct (truthy connected); reflexivity.
Qed.

Example connectDevice_empty_id_refused :
  Bluetooth.connectDevice ""
    (with_bluetooth (Resolved (VBool true)) (Resolved (VBool true))
       (Resolved (VArray [])) (Resolved (VBool true)) (Resolved VUndefined)
       (fun id => if String.eqb id "" then Resolved VNull
                  else Resolved (VDevice id))) [] =
    (Resolved (VBool false),
     [Native (ConnectToDevice "" CR);
      Toast "Error connecting to device: " BOTTOM]).
Proof. reflexivity. Qed.

(** C6.  For every device id, [disconnectDevice], [pairDevice] and
    [unPairDevice] resolve to the truthy value the binding resolved with, or
    reject: with the binding's error when the binding rejects, and with an
    error of their own when the binding resolves to a falsy value.  They
    never resolve to a falsy value. *)
Theorem disconnect_pair_unpair_resolve_or_reject
    (deviceId : string) (b : Binding) (h : History) :
  outcome (Bluetooth.disconnectDevice deviceId) b h =
    match RN_disconnectFromDevice b deviceId h with
    | Resolved disconnected =>
        if truthy disconnected then Resolved disconnected
        else Rejected
               (VError ("Failed to disconnect from device: " +:+ deviceId))
    | Rejected error => Rejected error
    end /\
  outcome (Bluetooth.pairDevice deviceId) b h =
    match RN_pairDevice b deviceId h with
    | Resolved paired =>
        if truthy paired then Resolved paired
        else Rejected (VError ("Failed to pair with device: " +:+ deviceId))
    | Rejected error => Rejected error
    end /\
  outcome (Bluetooth.unPairDevice deviceId) b h =
    match RN_unpairDevice b deviceId h with
    | Resolved unpaired =>
        if truthy unpaired then Resolved unpaired
        else Rejected (VError ("Failed to unpair with device: " +:+ deviceId))
    | Rejected error => Rejected error
    end.
Proof.
  unfold Bluetooth.disconnectDevice, Bluetooth.pairDevice,
    Bluetooth.unPairDevice. run.
  split; [|split].
  - destruct (RN_disconnectFromDevice b deviceId h) as [v|e]; [|reflexivity].
    destruct (truthy v); reflexivity.
  - destruct (RN_pairDevice b deviceId h) as [v|e]; [|reflexivity].
    destruct (truthy v); reflexivity.
  - destruct (RN_unpairDevice b deviceId h) as [v|e]; [|reflexivity].
    destruct (truthy v); reflexivity.
Qed.

(** ** Bluetooth: device primitives *)

(** C8 as stated fails: the error of the null check is caught by the
    function's own handler and replaced; the caller never sees it. *)
Lemma read_null_rejects_with_generic_error :
  outcome (Bluetooth.read None) happy [] =
    Rejected (VError "Failed to read data from device") /\
  outcome (Bluetooth.read None) happy [] <> Rejected no_device_connected.
Proof. split; [reflexivity|discriminate]. Qed.

(** C8 (amended).  With a null device, [read], [write], [available] and
    [clear] contact neither the device nor the binding; each reports the
    "No device connected." error on the console and rejects with the
    function's own generic failure error. *)
Theorem null_device_rejects_without_native_call
    (data : string) (b : Binding) (h : History) :
  Bluetooth.read None b h =
    (Rejected (VError "Failed to read data from device"),
     [Console Error [VStr "Error reading data from device:";
                     no_device_connected]]) /\
  Bluetooth.write None data b h =
    (Rejected (VError "Failed to write data to device"),
     [Console Error [VStr ("Error writing data to device: " +:+ data);
                     no_device_connected]]) /\
  Bluetooth.available None b h =
    (Rejected (VError "Failed to check available bytes"),
     [Console Error [VStr "Error checking available bytes:";
                     no_device_connected]]) /\
  Bluetooth.clear None b h =
    (Rejected (VError "Failed to clear buffer"),
     [Console Error [VStr "Error clearing buffer:"; no_device_connected]]).
Proof. repeat split. Qed.

(** The guard is the only thing that keeps the device from being called:
    with a device, each primitive is invoked first. *)
Lemma device_primitive_called_first
    (d : BluetoothDevice) (data : string) (b : Binding) (h : History) :
  (exists rest, emitted (Bluetooth.read (Some d)) b h =
                  Native (DeviceRead (dev_address d)) :: rest) /\
  (exists rest, emitted (Bluetooth.write (Some d) data) b h =
                  Native (DeviceWrite (dev_address d) data) :: rest) /\
  (exists rest, emitted (Bluetooth.available (Some d)) b h =
                  Native (DeviceAvailable (dev_address d)) :: rest) /\
  (exists rest, emitted (Bluetooth.clear (Some d)) b h =
                  Native (DeviceClear (dev_address d)) :: rest).
Proof.
  unfold Bluetooth.read, Bluetooth.write, Bluetooth.available, Bluetooth.clear.
  run. repeat split.
  - destruct (dev_read d h); eexists; reflexivity.
  - destruct (dev_write d data h) as [v|e]; [destruct (truthy v)|];
      eexists; reflexivity.
  - destruct (dev_available d h); eexists; reflexivity.
  - destruct (dev_clear d h); eexists; reflexivity.
Qed.

Example read_sample_device :
  Bluetooth.read (Some sample_device) happy [] =
    (Resolved (VStr "pong"),
     [Native (DeviceRead "00:11:22:33:44:55");
      Console Log [VStr "Data read from device: pong"]]).
Proof. reflexivity. Qed.

Example available_sample_device :
  Bluetooth.available (Some sample_device) happy [] =
    (Resolved (VNum 4),
     [Native (DeviceAvailable "00:11:22:33:44:55");
      Console Log [VStr "Bytes available to read: 4"]]).
Proof. vm_compute. reflexivity. Qed.

(** ** Bluetooth: subscriptions *)

Lemma forEach_cons {A B} (f : A -> M B) x xs b h :
  Array_forEach f (x :: xs) b h =
    match f x b h with
    | (Resolved _, es) =>
        let '(r, es') := Array_forEach f xs b (h ++ es) in (r, es ++ es')
    | (Rejected e, es) => (Rejected e, es)
    end.
Proof. reflexivity. Qed.

(** The loop of [cleanupSubscriptions]: it releases a prefix of the list and
    stops at the first release that throws. *)
Lemma forEach_remove_run (subscriptions : list Subscription) b h :
  exists n,
    (n <= length subscriptions)%nat /\
    snd (Array_forEach Subscription_remove subscriptions b h) =
      map release (take n subscriptions) /\
    (forall i s, (S i < n)%nat -> subscriptions !! i = Some s ->
       rejected (sub_remove s (h ++ map release (take i subscriptions)))
       = false) /\
    match fst (Array_forEach Subscription_remove subscriptions b h) with
    | Resolved _ =>
        n = length subscriptions /\
        forall i s, subscriptions !! i = Some s ->
          rejected (sub_remove s (h ++ map release (take i subscriptions)))
          = false
    | Rejected e =>
        exists s, (1 <= n)%nat /\
          subscriptions !! (n - 1)%nat = Some s /\
          sub_remove s (h ++ map release (take (n - 1) subscriptions))
          = Rejected e
    end.
Proof.
  revert h. induction subscriptions as [|s rest IH]; intros h.
  - exists 0%nat. cbn. split; [lia|]. split; [reflexivity|].
    split; [intros i s Hi; lia|]. split; [reflexivity|].
    intros i s H. rewrite lookup_nil in H. discriminate H.
  - rewrite forEach_cons. unfold Subscription_remove at 1 3, native.
    destruct (sub_remove s h) as [v|e] eqn:Hs.
    + destruct (IH (h ++ [release s])) as (n & Hn & Hem & Hbefore & Hend).
      fold (release s).
      destruct (Array_forEach Subscription_remove rest b (h ++ [release s]))
        as [r es] eqn:Hrest.
      cbn [fst snd] in *. exists (S n). split; [cbn; lia|].
      split; [cbn; rewrite Hem; reflexivity|]. split.
      * intros [|i] s' Hi Hlook.
        -- injection Hlook as <-. cbn. rewrite app_nil_r, Hs. reflexivity.
        -- cbn in Hlook. cbn [take map]. rewrite cons_middle, app_assoc.
           apply Hbefore; [lia|exact Hlook].
      * destruct r as [u|e].
        -- destruct Hend as [-> Hall]. split; [reflexivity|].
           intros [|i] s' Hlook.
           ++ injection Hlook as <-. cbn. rewrite app_nil_r, Hs. reflexivity.
           ++ cbn in Hlook. cbn [take map]. rewrite cons_middle, app_assoc.
              apply Hall, Hlook.
        -- destruct Hend as (s' & Hpos & Hlook & Hthrow).
           exists s'. split; [lia|].
           destruct n as [|n]; [lia|].
           replace (S (S n) - 1)%nat with (S n) by lia.
           replace (S n - 1)%nat with n in Hlook, Hthrow by lia.
           split; [exact Hlook|]. cbn [take map].
           rewrite cons_middle, app_assoc. exact Hthrow.
    + exists 1%nat. cbn [fst snd length]. split; [lia|].
      split; [reflexivity|]. split; [intros i s' Hi; lia|].
      exists s. split; [lia|]. split; [reflexivity|].
      cbn. rewrite app_nil_r. exact Hs.
Qed.

(** C7 as stated fails: when a release throws, the loop is left and the
    subscriptions after it are not released. *)
Lemma cleanupSubscriptions_stops_at_throw :
  Bluetooth.cleanupSubscriptions
    [failing_subscription 1; sample_subscription 2] happy [] =
    (Rejected (VError "remove failed"), [Native (SubscriptionRemove 1)]) /\
  calls (SubscriptionRemove 2)
    (emitted (Bluetooth.cleanupSubscriptions
                [failing_subscription 1; sample_subscription 2]) happy [])
    = 0%nat.
Proof. split; reflexivity. Qed.

(** C7 (amended).  [cleanupSubscriptions] releases the subscriptions in list
    order, one release per entry, up to and including the first one whose
    release throws: what it emits is the releases of a prefix of the list and
    no release before the last of them threw.  When it returns, the prefix
    is the whole list and no release threw; when it throws, the error is the
    one of the last release made, and nothing after that entry is released. *)
Theorem cleanupSubscriptions_releases_until_first_throw
    (subscriptions : list Subscription) (b : Binding) (h : History) :
  exists n,
    (n <= length subscriptions)%nat /\
    emitted (Bluetooth.cleanupSubscriptions subscriptions) b h =
      map release (take n subscriptions) /\
    (forall i s, (S i < n)%nat -> subscriptions !! i = Some s ->
       rejected (sub_remove s (h ++ map release (take i subscriptions)))
       = false) /\
    match outcome (Bluetooth.cleanupSubscriptions subscriptions) b h with
    | Resolved v =>
        v = VUndefined /\ n = length subscriptions /\
        forall i s, subscriptions !! i = Some s ->
          rejected (sub_remove s (h ++ map release (take i subscriptions)))
          = false
    | Rejected e =>
        exists s, (1 <= n)%nat /\
          subscriptions !! (n - 1)%nat = Some s /\
          sub_remove s (h ++ map release (take (n - 1) subscriptions))
          = Rejected e
    end.
Proof.
  destruct (forEach_remove_run subscriptions b h)
    as (n & Hn & Hem & Hbefore & Hend).
  exists n. unfold outcome, emitted, Bluetooth.cleanupSubscriptions.
  rewrite bind_run.
  destruct (Array_forEach Subscription_remove subscriptions b h) as [[u|e] es].
  - unfold mret, M_ret. cbn [fst snd] in *. rewrite app_nil_r.
    destruct Hend as [Hlen Hall]. repeat split; assumption.
  - cbn [fst snd] in *. repeat split; assumption.
Qed.

Example cleanupSubscriptions_two :
  Bluetooth.cleanupSubscriptions
    [sample_subscription 1; sample_subscription 2] happy [] =
    (Resolved VUndefined,
     [Native (SubscriptionRemove 1); Native (SubscriptionRemove 2)]).
Proof. reflexivity. Qed.

(** ** Toasts *)

Lemma toasts_releases (subscriptions : list Subscription) :
  toasts (map release subscriptions) = [].
Proof. induction subscriptions as [|s rest IH]; [reflexivity|exact IH]. Qed.

Lemma toasts_checkAllPermissions b h :
  toasts (emitted Permission.checkAllPermissions b h) = [].
Proof.
  unfold emitted. destruct (checkAllPermissions_run b h) as (line & -> & _ & Ht).
  cbn [snd]. rewrite toasts_app, Ht. reflexivity.
Qed.

Lemma toasts_enableBluetooth b h :
  toasts (emitted Bluetooth.enableBluetooth b h) = [].
Proof.
  unfold emitted. rewrite enableBluetooth_run.
  destruct (RN_requestBluetoothEnabled b h); reflexivity.
Qed.

Lemma toasts_startDiscovery b h :
  toasts (emitted Bluetooth.startDiscovery b h) = [].
Proof.
  unfold emitted at 1. rewrite startDiscovery_run, isBluetoothEnabled_run.
  destruct (RN_isBluetoothEnabled b h) as [v|e]; [|reflexivity]. cbv zeta.
  destruct (truthy v); cbn [negb].
  - destruct (all_checks_granted b _); cbn [negb].
    + destruct (RN_startDiscovery b _); destruct (RN_cancelDiscovery b _);
        cbn [snd]; rewrite !toasts_app, toasts_checkAllPermissions; reflexivity.
    + cbn [snd]. rewrite !toasts_app, toasts_checkAllPermissions. reflexivity.
  - cbn [snd].
    rewrite !toasts_app, toasts_checkAllPermissions, toasts_enableBluetooth.
    reflexivity.
Qed.

Lemma toasts_cleanupSubscriptions subscriptions b h :
  toasts (emitted (Bluetooth.cleanupSubscriptions subscriptions) b h) = [].
Proof.
  unfold emitted, Bluetooth.cleanupSubscriptions. rewrite bind_run.
  destruct (forEach_remove_run subscriptions b h) as (n & _ & Hem & _).
  destruct (Array_forEach Subscription_remove subscriptions b h) as [[u|e] es];
    unfold mret, M_ret; cbn [fst snd] in *; rewrite ?app_nil_r, Hem;
    apply toasts_releases.
Qed.

(** Splits on every answer of the binding the goal still looks at. *)
Ltac answer r :=
  lazymatch r with
  | match _ with Resolved _ => _ | Rejected _ => _ end => fail
  | (if _ then _ else _) => fail
  | _ => destruct r; cbn [negb]; cbv beta iota zeta
  end.

Ltac answers :=
  repeat match goal with
         | |- context [match ?r with Resolved _ => _ | Rejected _ => _ end] =>
             answer r
         | |- context [match ?r with
                       | GeoPosition => _ | GeoError _ => _ | GeoThrows _ => _
                       end] =>
             answer r
         | |- context [truthy ?v] => answer (truthy v)
         | |- context [forallb ?f ?l] => answer (forallb f l)
         | |- context [match ?d with Some _ => _ | None => _ end] => answer d
         end.

(** C9 as stated fails: when the settings screen cannot be opened, the error
    is logged and thrown, and no toast is shown. *)
Lemma openBluetoothSettings_failure_shows_no_toast :
  RN_openBluetoothSettings settings_unavailable [] =
    Rejected (VError "no activity") /\
  Bluetooth.openBluetoothSettings settings_unavailable [] =
    (Rejected (VError "Failed to open Bluetooth settings"),
     [Native OpenBluetoothSettings;
      Console Error [VStr "Error opening Bluetooth settings:";
                     VError "no activity"]]) /\
  toasts (op_emitted OpenSettings settings_unavailable []) = [].
Proof. repeat split. Qed.

(** C9 (amended).  Over all the exported operations, a call shows a toast,
    and then exactly one, in these cases and no others: [stopDiscovery] when
    the cancel call rejects, [connectDevice] when the connection fails (the
    binding rejects or resolves to a falsy value), and
    [openBluetoothSettings] when the settings screen has opened.  A failure
    to open the settings shows none. *)
Theorem toast_exactly_when (op : Op) (b : Binding) (h : History) :
  length (toasts (op_emitted op b h)) =
    if toast_shown op b h then 1%nat else 0%nat.
Proof.
  destruct op; cbn [op_emitted toast_shown];
    try (rewrite toasts_checkAllPermissions; reflexivity);
    try (rewrite toasts_startDiscovery; reflexivity);
    try (rewrite toasts_cleanupSubscriptions; reflexivity).
  all: unfold Permission.requestAllPermissions,
         Permission.requestLocationService, Bluetooth.isBluetoothEnabled,
         Bluetooth.enableBluetooth, Bluetooth.stopDiscovery,
         Bluetooth.connectDevice, Bluetooth.disconnectDevice,
         Bluetooth.pairDevice, Bluetooth.unPairDevice,
         Bluetooth.getPairedDevices, Bluetooth.getConnectedDevice,
         Bluetooth.getBondedDevices, Bluetooth.onBluetoothEnabled,
         Bluetooth.onBluetoothDisabled, Bluetooth.onStateChanged,
         Bluetooth.onDeviceConnected, Bluetooth.onDeviceDisconnected,
         Bluetooth.openBluetoothSettings, Bluetooth.read, Bluetooth.write,
         Bluetooth.available, Bluetooth.clear, failed, rejected.
  all: run; answers; reflexivity.
Qed.

(** ** Discovery: the remaining paths *)

Lemma checkAllPermissions_granted_run b h :
  all_checks_granted b h = true ->
  Permission.checkAllPermissions b h = (Resolved true, check_calls).
Proof.
  unfold Permission.checkAllPermissions, all_checks_granted, check_scan,
    check_connect, check_location, Permission.ALL_PERMISSIONS.
  run. tidy.
  destruct (PermissionsAndroid_check b Permission.BLUETOOTH_SCAN _) as [[]|];
    destruct (PermissionsAndroid_check b Permission.BLUETOOTH_CONNECT _)
      as [[]|];
    destruct (PermissionsAndroid_check b Permission.ACCESS_FINE_LOCATION _)
      as [[]|]; try discriminate.
  reflexivity.
Qed.

(** With Bluetooth on and every permission granted, the run reaches the
    discovery attempt and its cleanup. *)
Lemma startDiscovery_attempt_run b h isBLenabled :
  RN_isBluetoothEnabled b h = Resolved isBLenabled ->
  truthy isBLenabled = true ->
  all_checks_granted b (h ++ [Native IsBluetoothEnabled]) = true ->
  Bluetooth.startDiscovery b h =
    match RN_cancelDiscovery b (cancel_history b h) with
    | Resolved _ =>
        (Resolved match RN_startDiscovery b (discovery_history h) with
                  | Resolved unpaired => unpaired
                  | Rejected error => error
                  end,
         [Native IsBluetoothEnabled] ++ check_calls ++ discovery_events b h ++
         [Native CancelDiscovery; Console Log [VStr "Discovery stopped"]])
    | Rejected error =>
        (Rejected error,
         [Native IsBluetoothEnabled] ++ check_calls ++ discovery_events b h ++
         [Native CancelDiscovery])
    end.
Proof.
  intros Hen Hv Hp.
  rewrite startDiscovery_run, isBluetoothEnabled_run, Hen. cbv zeta.
  rewrite Hv, Hp. cbn [negb]. unfold emitted.
  rewrite (checkAllPermissions_granted_run _ _ Hp). cbn [snd].
  reflexivity.
Qed.

(** With Bluetooth on and a permission missing, [startDiscovery] hands back
    [false] and touches neither discovery nor the enable request. *)
Theorem startDiscovery_missing_permission_returns_false
    (b : Binding) (h : History) (isBLenabled : Val) :
  RN_isBluetoothEnabled b h = Resolved isBLenabled ->
  truthy isBLenabled = true ->
  all_checks_granted b (h ++ [Native IsBluetoothEnabled]) = false ->
  outcome Bluetooth.startDiscovery b h = Resolved (VBool false) /\
  calls StartDiscovery (emitted Bluetooth.startDiscovery b h) = 0%nat /\
  calls CancelDiscovery (emitted Bluetooth.startDiscovery b h) = 0%nat /\
  calls RequestBluetoothEnabled (emitted Bluetooth.startDiscovery b h) = 0%nat.
Proof.
  intros Hen Hv Hp.
  change (emitted Bluetooth.startDiscovery b h)
    with (snd (Bluetooth.startDiscovery b h)).
  change (outcome Bluetooth.startDiscovery b h)
    with (fst (Bluetooth.startDiscovery b h)).
  rewrite startDiscovery_run, isBluetoothEnabled_run, Hen. cbv zeta.
  rewrite Hv, Hp. cbn [negb fst snd]. split; [reflexivity|].
  rewrite !calls_app, !calls_checkAllPermissions by done.
  repeat split.
Qed.

Lemma startDiscovery_missing_permission_returns_false_witness :
  all_checks_granted connect_denied [Native IsBluetoothEnabled] = false /\
  outcome Bluetooth.startDiscovery connect_denied [] = Resolved (VBool false) /\
  calls StartDiscovery (emitted Bluetooth.startDiscovery connect_denied [])
    = 0%nat.
Proof.
  split; [reflexivity|].
  destruct (startDiscovery_missing_permission_returns_false
              connect_denied [] (VBool true)) as (Hout & Hstart & _);
    [reflexivity..|].
  exact (conj Hout Hstart).
Defined.

Lemma calls_request_enableBluetooth b h :
  calls RequestBluetoothEnabled (emitted Bluetooth.enableBluetooth b h) = 1%nat.
Proof.
  unfold emitted. rewrite enableBluetooth_run.
  destruct (RN_requestBluetoothEnabled b h); reflexivity.
Qed.

Lemma calls_other_enableBluetooth c b h :
  c <> RequestBluetoothEnabled ->
  calls c (emitted Bluetooth.enableBluetooth b h) = 0%nat.
Proof.
  intros Hc. unfold emitted. rewrite enableBluetooth_run.
  destruct (RN_requestBluetoothEnabled b h); cbn [snd];
    rewrite !calls_cons; cbn [is_call];
    rewrite bool_decide_eq_false_2 by congruence; reflexivity.
Qed.

(** In every run of [startDiscovery]: the enabled check is made once; the
    cancel call is made exactly as often as the discovery call, at most
    once; and a run never both asks to enable Bluetooth and discovers. *)
Theorem startDiscovery_call_budget (b : Binding) (h : History) :
  let es := emitted Bluetooth.startDiscovery b h in
  calls IsBluetoothEnabled es = 1%nat /\
  calls CancelDiscovery es = calls StartDiscovery es /\
  (calls StartDiscovery es + calls RequestBluetoothEnabled es <= 1)%nat.
Proof.
  cbv zeta. unfold emitted at 1 2 3 4 5. rewrite startDiscovery_run.
  rewrite isBluetoothEnabled_run.
  assert (Hsplit : forall n1 n2 n3 n4 : nat,
             n1 = 1%nat -> n2 = n3 -> (n3 + n4 <= 1)%nat ->
             n1 = 1%nat /\ n2 = n3 /\ (n3 + n4 <= 1)%nat) by auto.
  destruct (RN_isBluetoothEnabled b h) as [v|e];
    [|apply Hsplit; vm_compute; lia].
  cbv zeta. destruct (truthy v); cbn [negb].
  - destruct (all_checks_granted b _); cbn [negb].
    + destruct (RN_startDiscovery b _); destruct (RN_cancelDiscovery b _);
        cbn [snd]; rewrite !calls_app, !calls_checkAllPermissions by done;
        apply Hsplit; vm_compute; lia.
    + cbn [snd]. rewrite !calls_app, !calls_checkAllPermissions by done.
      apply Hsplit; vm_compute; lia.
  - cbn [snd]. rewrite !calls_app, !calls_checkAllPermissions by done.
    rewrite !calls_other_enableBluetooth, calls_request_enableBluetooth by done.
    apply Hsplit; vm_compute; lia.
Qed.

(** When the cancel call of the cleanup step fails, [startDiscovery] rejects
    with the cancel error: the devices found (or the discovery error) are
    lost, and nothing is logged or shown about it.  The cancel call is the
    one the run makes, at the history the run has reached. *)
Theorem startDiscovery_cancel_failure_replaces_result
    (b : Binding) (h : History) (isBLenabled error : Val) :
  RN_isBluetoothEnabled b h = Resolved isBLenabled ->
  truthy isBLenabled = true ->
  all_checks_granted b (h ++ [Native IsBluetoothEnabled]) = true ->
  RN_cancelDiscovery b (cancel_history b h) = Rejected error ->
  Bluetooth.startDiscovery b h =
    (Rejected error,
     [Native IsBluetoothEnabled] ++ check_calls ++ discovery_events b h ++
     [Native CancelDiscovery]).
Proof.
  intros Hen Hv Hp Hcancel.
  rewrite (startDiscovery_attempt_run b h isBLenabled Hen Hv Hp), Hcancel.
  reflexivity.
Qed.

Lemma startDiscovery_cancel_failure_replaces_result_witness :
  RN_cancelDiscovery busy_cancel [] = Resolved (VBool true) /\
  RN_startDiscovery busy_cancel (discovery_history []) =
    Resolved (VArray [VDevice "00:11:22:33:44:55"]) /\
  Bluetooth.startDiscovery busy_cancel [] =
    (Rejected (VError "busy"),
     [Native IsBluetoothEnabled] ++ check_calls ++
     [Native StartDiscovery; Native CancelDiscovery]).
Proof.
  split; [reflexivity|]. split; [reflexivity|].
  apply (startDiscovery_cancel_failure_replaces_result
           busy_cancel [] (VBool true) (VError "busy")); reflexivity.
Defined.

(** When the discovery call of the run fails and its cancel call works, the
    discovery error is logged and is the value [startDiscovery] resolves
    to. *)
Theorem startDiscovery_discovery_error_is_returned
    (b : Binding) (h : History) (isBLenabled error : Val) :
  RN_isBluetoothEnabled b h = Resolved isBLenabled ->
  truthy isBLenabled = true ->
  all_checks_granted b (h ++ [Native IsBluetoothEnabled]) = true ->
  RN_startDiscovery b (discovery_history h) = Rejected error ->
  rejected
    (RN_cancelDiscovery b
       (discovery_history h ++ [Native StartDiscovery; Console Error [error]]))
  = false ->
  Bluetooth.startDiscovery b h =
    (Resolved error,
     [Native IsBluetoothEnabled] ++ check_calls ++
     [Native StartDiscovery; Console Error [error];
      Native CancelDiscovery; Console Log [VStr "Discovery stopped"]]).
Proof.
  intros Hen Hv Hp Hdisc Hcancel.
  rewrite (startDiscovery_attempt_run b h isBLenabled Hen Hv Hp).
  unfold cancel_history, discovery_events. rewrite Hdisc.
  destruct (RN_cancelDiscovery b _); [reflexivity|discriminate Hcancel].
Qed.

Lemma startDiscovery_discovery_error_is_returned_witness :
  Bluetooth.startDiscovery discovery_fails [] =
    (Resolved (VError "scan failed"),
     [Native IsBluetoothEnabled] ++ check_calls ++
     [Native StartDiscovery; Console Error [VError "scan failed"];
      Native CancelDiscovery; Console Log [VStr "Discovery stopped"]]).
Proof.
  apply (startDiscovery_discovery_error_is_returned
           discovery_fails [] (VBool true) (VError "scan failed"));
    reflexivity.
Defined.

(** [stopDiscovery] makes one cancel call and resolves to [undefined]
    whatever the call answers. *)
Theorem stopDiscovery_never_rejects (b : Binding) (h : History) :
  outcome Bluetooth.stopDiscovery b h = Resolved VUndefined /\
  native_calls (emitted Bluetooth.stopDiscovery b h) = [Native CancelDiscovery].
Proof.
  unfold Bluetooth.stopDiscovery. run.
  destruct (RN_cancelDiscovery b h); split; reflexivity.
Qed.

(** ** Permissions: what is asked and what is reported *)

(** Filtering by position against a list of answers keeps the entries whose
    own answer is [false]; an entry without an answer is kept as well. *)
Lemma filter_index_from_denied (results : list bool) (xs : list string) i :
  (length xs <= length (drop i results))%nat ->
  filter_index_from (fun index _ => negb (default false (results !! index))) i xs
  = denied (zip xs (drop i results)).
Proof.
  revert i. induction xs as [|x xs IH]; intros i Hlen; [reflexivity|].
  destruct (drop i results) as [|r rest] eqn:Hdrop; [cbn in Hlen; lia|].
  assert (Hi : results !! i = Some r).
  { rewrite <- (Nat.add_0_r i), <- lookup_drop, Hdrop. reflexivity. }
  assert (Hrest : drop (S i) results = rest).
  { replace (S i) with (i + 1)%nat by lia.
    rewrite <- drop_drop, Hdrop. reflexivity. }
  cbn [filter_index_from zip zip_with]. rewrite Hi. cbn [default].
  rewrite IH by (rewrite Hrest; cbn in Hlen; lia). rewrite Hrest.
  unfold denied. cbn [List.filter snd]. destruct r; reflexivity.
Qed.

Lemma filter_index_missing_answers (xs : list string) :
  Array_filter_index (fun index _ => negb (default false (@nil bool !! index)))
    xs = xs.
Proof.
  unfold Array_filter_index. generalize 0%nat.
  induction xs as [|x xs IH]; intros i; [reflexivity|].
  cbn [filter_index_from]. rewrite lookup_nil. cbn. rewrite IH. reflexivity.
Qed.

(** When the three checks answer and one of them answers [false],
    [checkAllPermissions] has still made all three checks, in order, and its
    single warning names exactly the permissions whose own check answered
    [false]. *)
Theorem checkAllPermissions_warns_about_denied
    (b : Binding) (h : History) (scan connect location : bool) :
  check_scan b h = Resolved scan ->
  check_connect b h = Resolved connect ->
  check_location b h = Resolved location ->
  scan && connect && location = false ->
  Permission.checkAllPermissions b h =
    (Resolved false,
     check_calls ++
     [Console Warn
        [VStr (not_granted_report
                 (denied [(Permission.BLUETOOTH_SCAN, scan);
                          (Permission.BLUETOOTH_CONNECT, connect);
                          (Permission.ACCESS_FINE_LOCATION, location)]))]]).
Proof.
  unfold check_scan, check_connect, check_location. intros H1 H2 H3 Hdenied.
  unfold Permission.checkAllPermissions, Permission.ALL_PERMISSIONS.
  run. tidy. rewrite H1, H2, H3. cbn [Promise_all forallb].
  replace (scan && (connect && (location && true))) with false
    by (rewrite andb_true_r, andb_assoc; symmetry; exact Hdenied).
  cbn [negb]. unfold Array_filter_index.
  rewrite filter_index_from_denied by (cbn; lia).
  reflexivity.
Qed.

Lemma checkAllPermissions_warns_about_denied_witness :
  Permission.checkAllPermissions connect_denied [] =
    (Resolved false,
     check_calls ++
     [Console Warn
        [VStr "android.permission.BLUETOOTH_CONNECT is not granted."]]).
Proof.
  rewrite (checkAllPermissions_warns_about_denied
             connect_denied [] true false true); reflexivity.
Defined.

Lemma console_lines_app es es' :
  console_lines (es ++ es') = console_lines es ++ console_lines es'.
Proof. apply List.filter_app. Qed.

(** When one of the checks fails, [checkAllPermissions] answers [false] and
    writes a single console line, the error line, with the error of a failed
    check; a permission that was denied in the same run is not warned
    about. *)
Theorem checkAllPermissions_failure_is_reported (b : Binding) (h : History) :
  rejected (check_scan b h) || rejected (check_connect b h)
  || rejected (check_location b h) = true ->
  outcome Permission.checkAllPermissions b h = Resolved false /\
  exists error,
    console_lines (emitted Permission.checkAllPermissions b h) =
      [Console Error [VStr "Error checking permissions"; error]] /\
    (check_scan b h = Rejected error \/ check_connect b h = Rejected error \/
     check_location b h = Rejected error).
Proof.
  unfold check_scan, check_connect, check_location, outcome, emitted,
    Permission.checkAllPermissions, Permission.ALL_PERMISSIONS.
  run. tidy.
  destruct (PermissionsAndroid_check b Permission.BLUETOOTH_SCAN h) as [r1|e1];
    destruct (PermissionsAndroid_check b Permission.BLUETOOTH_CONNECT _)
      as [r2|e2];
    destruct (PermissionsAndroid_check b Permission.ACCESS_FINE_LOCATION _)
      as [r3|e3];
    cbn [rejected orb]; intros Hfail; try discriminate Hfail;
    cbn [Promise_all fst snd app]; (split; [reflexivity|]);
    eexists; (split; [reflexivity|]); auto.
Qed.

Lemma checkAllPermissions_failure_is_reported_witness :
  check_connect location_check_fails [] = Resolved false /\
  outcome Permission.checkAllPermissions location_check_fails [] =
    Resolved false /\
  console_lines (emitted Permission.checkAllPermissions location_check_fails [])
  = [Console Error [VStr "Error checking permissions"; VError "binder died"]].
Proof.
  split; [reflexivity|].
  destruct (checkAllPermissions_failure_is_reported location_check_fails [])
    as (Hout & error & Hlines & _); [reflexivity|].
  split; [exact Hout|]. reflexivity.
Defined.

(** [requestAllPermissions] asks once, for the fixed set, and writes exactly
    one console line: a log when it answers [true], an error when the request
    itself failed, a warning otherwise. *)
Theorem requestAllPermissions_one_request_one_line (b : Binding) (h : History) :
  exists lvl args,
    emitted Permission.requestAllPermissions b h =
      [Native (RequestMultiple Permission.ALL_PERMISSIONS); Console lvl args] /\
    (lvl = Log <->
     outcome Permission.requestAllPermissions b h = Resolved true) /\
    (lvl = Error <->
     rejected
       (PermissionsAndroid_requestMultiple b Permission.ALL_PERMISSIONS h)
     = true).
Proof.
  unfold outcome, emitted, Permission.requestAllPermissions. run.
  destruct (PermissionsAndroid_requestMultiple b Permission.ALL_PERMISSIONS h)
    as [granted|e]; cbn [rejected].
  - destruct (forallb (Permission.is_granted granted)
                Permission.ALL_PERMISSIONS);
      cbn [negb fst snd app]; do 2 eexists;
      (split; [reflexivity|]); split; split; intros H;
      discriminate H || reflexivity.
  - cbn [fst snd app]. do 2 eexists. split; [reflexivity|].
    split; split; intros H; discriminate H || reflexivity.
Qed.

(** Any answer other than [granted] for a permission of the set (denied,
    never-ask-again, or no entry at all) makes [requestAllPermissions]
    resolve to [false]. *)
Theorem requestAllPermissions_not_granted_is_false
    (b : Binding) (h : History) (granted : gmap string string) (p : string) :
  PermissionsAndroid_requestMultiple b Permission.ALL_PERMISSIONS h
  = Resolved granted ->
  p ∈ Permission.ALL_PERMISSIONS ->
  granted !! p <> Some Permission.GRANTED ->
  outcome Permission.requestAllPermissions b h = Resolved false.
Proof.
  intros Hreq Hp Hno. rewrite requestAllPermissions_outcome, Hreq.
  destruct (forallb (Permission.is_granted granted) Permission.ALL_PERMISSIONS)
    eqn:Hall; [|reflexivity].
  exfalso. apply Hno. apply all_granted_spec; [exact Hall|exact Hp].
Qed.

Lemma requestAllPermissions_not_granted_is_false_witness :
  outcome Permission.requestAllPermissions location_missing [] = Resolved false.
Proof.
  apply (requestAllPermissions_not_granted_is_false location_missing [] _
           Permission.ACCESS_FINE_LOCATION eq_refl).
  - unfold Permission.ALL_PERMISSIONS. set_solver.
  - vm_compute. discriminate.
Defined.

(** ** The two failure policies *)

(** The operations whose body is one [try] with a returning handler never
    reject, whatever the binding does: the two permission functions,
    [stopDiscovery], [connectDevice], [getPairedDevices] and
    [getConnectedDevice]. *)
Theorem swallowing_operations_never_reject
    (op : Op) (b : Binding) (h : History) :
  swallows op = true -> op_rejects op b h = false.
Proof.
  destruct op; cbn [swallows op_rejects]; try discriminate; intros _.
  - rewrite requestAllPermissions_outcome. reflexivity.
  - unfold outcome. destruct (checkAllPermissions_run b h) as (line & -> & _).
    reflexivity.
  - unfold Bluetooth.stopDiscovery. run. answers; reflexivity.
  - unfold Bluetooth.connectDevice. run. answers; reflexivity.
  - unfold Bluetooth.getPairedDevices. run. answers; reflexivity.
  - unfold Bluetooth.getConnectedDevice. run. answers; reflexivity.
Qed.

Lemma swallowing_operations_never_reject_witness :
  RN_connectToDevice unreachable_devices "AA:BB" CR [] =
    Rejected (VError "unreachable") /\
  op_rejects (Connect "AA:BB") unreachable_devices [] = false.
Proof.
  split; [reflexivity|].
  apply (swallowing_operations_never_reject
           (Connect "AA:BB") unreachable_devices []).
  reflexivity.
Defined.

(** [requestLocationService] has no handler of its own: it answers through
    the two callbacks and rejects when the position request itself throws. *)
Lemma requestLocationService_outcome b h :
  outcome Permission.requestLocationService b h =
    match Geolocation_getCurrentPosition b h with
    | GeoPosition => Resolved true
    | GeoError _ => Resolved false
    | GeoThrows error => Rejected error
    end.
Proof.
  unfold outcome, Permission.requestLocationService.
  destruct (Geolocation_getCurrentPosition b h); reflexivity.
Qed.

(** [isBluetoothEnabled], [getBondedDevices] and [openBluetoothSettings]
    pass a success on and replace every error of the binding by a fixed one
    of their own; the binding's error only reaches the console. *)
Theorem native_errors_are_replaced (b : Binding) (h : History) :
  Bluetooth.isBluetoothEnabled b h =
    match RN_isBluetoothEnabled b h with
    | Resolved enabled => (Resolved enabled, [Native IsBluetoothEnabled])
    | Rejected error =>
        (Rejected (VError "Failed to check if Bluetooth is enabled"),
         [Native IsBluetoothEnabled; Console Error [error]])
    end /\
  Bluetooth.getBondedDevices b h =
    match RN_getBondedDevices b h with
    | Resolved devices => (Resolved devices, [Native GetBondedDevices])
    | Rejected error =>
        (Rejected (VError "Failed to fetch bonded devices"),
         [Native GetBondedDevices;
          Console Error [VStr "Error fetching bonded devices:"; error]])
    end /\
  Bluetooth.openBluetoothSettings b h =
    match RN_openBluetoothSettings b h with
    | Resolved _ =>
        (Resolved VUndefined,
         [Native OpenBluetoothSettings; Toast "Bluetooth settings opened" SHORT])
    | Rejected error =>
        (Rejected (VError "Failed to open Bluetooth settings"),
         [Native OpenBluetoothSettings;
          Console Error [VStr "Error opening Bluetooth settings:"; error]])
    end.
Proof.
  unfold Bluetooth.isBluetoothEnabled, Bluetooth.getBondedDevices,
    Bluetooth.openBluetoothSettings. run.
  destruct (RN_isBluetoothEnabled b h), (RN_getBondedDevices b h),
    (RN_openBluetoothSettings b h); repeat split.
Qed.

(** [getPairedDevices] and [getBondedDevices] each make one native call, the
    binding's [getBondedDevices], and agree whenever it succeeds; when it
    fails, the first resolves to an empty list and the second rejects. *)
Theorem paired_and_bonded_differ_only_on_failure (b : Binding) (h : History) :
  native_calls (emitted Bluetooth.getPairedDevices b h) =
    [Native GetBondedDevices] /\
  native_calls (emitted Bluetooth.getBondedDevices b h) =
    [Native GetBondedDevices] /\
  match RN_getBondedDevices b h with
  | Resolved devices =>
      outcome Bluetooth.getPairedDevices b h = Resolved devices /\
      outcome Bluetooth.getBondedDevices b h = Resolved devices
  | Rejected _ =>
      outcome Bluetooth.getPairedDevices b h = Resolved (VArray []) /\
      outcome Bluetooth.getBondedDevices b h =
        Rejected (VError "Failed to fetch bonded devices")
  end.
Proof.
  unfold Bluetooth.getPairedDevices, Bluetooth.getBondedDevices. run.
  destruct (RN_getBondedDevices b h); repeat split.
Qed.

(** [getConnectedDevice] resolves to what the binding lists, and to an empty
    list when the binding fails. *)
Theorem getConnectedDevice_empty_on_failure (b : Binding) (h : History) :
  outcome Bluetooth.getConnectedDevice b h =
    Resolved match RN_getConnectedDevices b h with
             | Resolved devices => devices
             | Rejected _ => VArray []
             end.
Proof.
  unfold Bluetooth.getConnectedDevice. run.
  destruct (RN_getConnectedDevices b h); reflexivity.
Qed.

(** ** Device primitives with a device *)

(** With a device, each primitive resolves to exactly what the device
    resolved with, a falsy value included: unlike the connection functions,
    [write] and [clear] do not turn a [false] into an error.  When the device
    call fails, the function rejects with its own fixed error. *)
Theorem device_primitives_pass_results_on
    (d : BluetoothDevice) (data : string) (b : Binding) (h : History) :
  outcome (Bluetooth.read (Some d)) b h =
    match dev_read d h with
    | Resolved value => Resolved value
    | Rejected _ => Rejected (VError "Failed to read data from device")
    end /\
  outcome (Bluetooth.write (Some d) data) b h =
    match dev_write d data h with
    | Resolved success => Resolved success
    | Rejected _ => Rejected (VError "Failed to write data to device")
    end /\
  outcome (Bluetooth.available (Some d)) b h =
    match dev_available d h with
    | Resolved bytesAvailable => Resolved bytesAvailable
    | Rejected _ => Rejected (VError "Failed to check available bytes")
    end /\
  outcome (Bluetooth.clear (Some d)) b h =
    match dev_clear d h with
    | Resolved cleared => Resolved cleared
    | Rejected _ => Rejected (VError "Failed to clear buffer")
    end.
Proof.
  unfold Bluetooth.read, Bluetooth.write, Bluetooth.available, Bluetooth.clear.
  run. repeat split.
  - destruct (dev_read d h); reflexivity.
  - destruct (dev_write d data h) as [v|e]; [destruct (truthy v)|]; reflexivity.
  - destruct (dev_available d h); reflexivity.
  - destruct (dev_clear d h); reflexivity.
Qed.

(** [write] logs the data only after a truthy answer; a refused write
    resolves to the falsy answer with nothing on the console. *)
Theorem write_refused_is_silent
    (d : BluetoothDevice) (data : string) (b : Binding) (h : History)
    (success : Val) :
  dev_write d data h = Resolved success ->
  truthy success = false ->
  Bluetooth.write (Some d) data b h =
    (Resolved success, [Native (DeviceWrite (dev_address d) data)]).
Proof.
  intros Hw Hs. unfold Bluetooth.write. run. rewrite Hw, Hs. reflexivity.
Qed.

Lemma write_refused_is_silent_witness :
  Bluetooth.write (Some write_refusing_device) "AT" happy [] =
    (Resolved (VBool false), [Native (DeviceWrite "00:11:22:33:44:77" "AT")]).
Proof.
  apply (write_refused_is_silent write_refusing_device "AT" happy []
           (VBool false)); reflexivity.
Defined.

(** A caller cannot tell a null device from a device whose call failed: for
    each primitive on its own, when the device's method fails the call ends
    as the same call with a null device ends (and otherwise resolves to the
    method's value). *)
Theorem null_device_looks_like_failed_call
    (d : BluetoothDevice) (data : string) (b : Binding) (h : History) :
  outcome (Bluetooth.read (Some d)) b h =
    match dev_read d h with
    | Resolved value => Resolved value
    | Rejected _ => outcome (Bluetooth.read None) b h
    end /\
  outcome (Bluetooth.write (Some d) data) b h =
    match dev_write d data h with
    | Resolved success => Resolved success
    | Rejected _ => outcome (Bluetooth.write None data) b h
    end /\
  outcome (Bluetooth.available (Some d)) b h =
    match dev_available d h with
    | Resolved bytesAvailable => Resolved bytesAvailable
    | Rejected _ => outcome (Bluetooth.available None) b h
    end /\
  outcome (Bluetooth.clear (Some d)) b h =
    match dev_clear d h with
    | Resolved cleared => Resolved cleared
    | Rejected _ => outcome (Bluetooth.clear None) b h
    end.
Proof.
  unfold Bluetooth.read, Bluetooth.write, Bluetooth.available, Bluetooth.clear.
  run. repeat split.
  - destruct (dev_read d h); reflexivity.
  - destruct (dev_write d data h) as [v|e]; [destruct (truthy v)|]; reflexivity.
  - destruct (dev_available d h); reflexivity.
  - destruct (dev_clear d h); reflexivity.
Qed.

Example unreadable_device_reads_like_null :
  outcome (Bluetooth.read (Some unreadable_device)) happy [] =
    outcome (Bluetooth.read None) happy [] /\
  outcome (Bluetooth.write (Some unreadable_device) "AT") happy [] =
    Resolved (VBool true).
Proof. split; reflexivity. Qed.

(** ** Subscriptions: whole lists and concatenations *)



Lemma forEach_app {A B} (f : A -> M B) (xs ys : list A) b h :
  Array_forEach f (xs ++ ys) b h =
    match Array_forEach f xs b h with
    | (Resolved _, es) =>
        let '(r, es') := Array_forEach f ys b (h ++ es) in (r, es ++ es')
    | (Rejected e, es) => (Rejected e, es)
    end.
Proof.
  revert h. induction xs as [|x xs IH]; intros h.
  - cbn [app Array_forEach]. unfold mret at 1, M_ret. rewrite app_nil_r.
    destruct (Array_forEach f ys b h); reflexivity.
  - cbn [app]. rewrite !forEach_cons.
    destruct (f x b h) as [[u|e] es]; [|reflexivity].
    rewrite IH.
    destruct (Array_forEach f xs b (h ++ es)) as [[u'|e'] es']; [|reflexivity].
    rewrite <- app_assoc.
    destruct (Array_forEach f ys b (h ++ es ++ es')) as [r es''].
    rewrite <- app_assoc. reflexivity.
Qed.

(** Cleaning up a concatenation is cleaning up the first list and then, only
    if that returned, the second; when a release of the first list throws,
    nothing of the second list is released. *)
Theorem cleanupSubscriptions_app
    (first second : list Subscription) (b : Binding) (h : History) :
  Bluetooth.cleanupSubscriptions (first ++ second) b h =
    match Bluetooth.cleanupSubscriptions first b h with
    | (Resolved _, es) =>
        let '(r, es') := Bluetooth.cleanupSubscriptions second b (h ++ es) in
        (r, es ++ es')
    | (Rejected e, es) => (Rejected e, es)
    end.
Proof.
  unfold Bluetooth.cleanupSubscriptions. rewrite !bind_run, forEach_app.
  destruct (Array_forEach Subscription_remove first b h) as [[u|e] es];
    [|reflexivity].
  unfold mret, M_ret. cbv beta iota zeta. rewrite !app_nil_r, bind_run.
  destruct (Array_forEach Subscription_remove second b (h ++ es))
    as [[u'|e'] es']; cbv beta iota zeta; rewrite ?app_nil_r; reflexivity.
Qed.

(** ** A single attempt per call *)

Lemma native_calls_app es es' :
  native_calls (es ++ es') = native_calls es ++ native_calls es'.
Proof. apply List.filter_app. Qed.

Lemma native_calls_checkAllPermissions b h :
  native_calls (emitted Permission.checkAllPermissions b h) = check_calls.
Proof.
  unfold emitted. destruct (checkAllPermissions_run b h) as (line & -> & Hl & _).
  cbn [snd]. rewrite native_calls_app, Hl, app_nil_r. reflexivity.
Qed.

(** Closes [NoDup] of an explicit list of distinct native calls. *)
Ltac distinct_calls :=
  unfold check_calls, Permission.BLUETOOTH_SCAN, Permission.BLUETOOTH_CONNECT,
    Permission.ACCESS_FINE_LOCATION;
  repeat (apply NoDup_cons_2;
          [rewrite ?elem_of_cons, elem_of_nil; intros Hin;
           repeat (destruct Hin as [Hin|Hin]; [discriminate Hin|]);
           exact Hin|]);
  apply NoDup_nil_2.

Lemma native_calls_startDiscovery_distinct b h :
  NoDup (native_calls (emitted Bluetooth.startDiscovery b h)).
Proof.
  unfold emitted at 1. rewrite startDiscovery_run, isBluetoothEnabled_run.
  destruct (RN_isBluetoothEnabled b h) as [v|e];
    [|cbn; distinct_calls].
  cbv zeta. destruct (truthy v); cbn [negb].
  - destruct (all_checks_granted b _); cbn [negb].
    + destruct (RN_startDiscovery b _); destruct (RN_cancelDiscovery b _);
        cbn [snd];
        rewrite !native_calls_app, native_calls_checkAllPermissions;
        cbn; distinct_calls.
    + cbn [snd].
      rewrite !native_calls_app, native_calls_checkAllPermissions.
      cbn; distinct_calls.
  - cbn [snd].
    rewrite !native_calls_app, native_calls_checkAllPermissions.
    unfold emitted. rewrite enableBluetooth_run.
    destruct (RN_requestBluetoothEnabled b _); cbn; distinct_calls.
Qed.

(** No operation retries: apart from [cleanupSubscriptions], which makes one
    call per list entry, a call of an exported operation never makes the same
    native call twice. *)
Theorem no_native_call_is_repeated (op : Op) (b : Binding) (h : History) :
  loop_free op = true -> NoDup (native_calls (op_emitted op b h)).
Proof.
  destruct op; cbn [loop_free op_emitted]; try discriminate; intros _;
    try apply native_calls_startDiscovery_distinct;
    try (rewrite native_calls_checkAllPermissions; distinct_calls).
  all: unfold Permission.requestAllPermissions,
         Permission.requestLocationService, Bluetooth.isBluetoothEnabled,
         Bluetooth.enableBluetooth, Bluetooth.stopDiscovery,
         Bluetooth.connectDevice, Bluetooth.disconnectDevice,
         Bluetooth.pairDevice, Bluetooth.unPairDevice,
         Bluetooth.getPairedDevices, Bluetooth.getConnectedDevice,
         Bluetooth.getBondedDevices, Bluetooth.onBluetoothEnabled,
         Bluetooth.onBluetoothDisabled, Bluetooth.onStateChanged,
         Bluetooth.onDeviceConnected, Bluetooth.onDeviceDisconnected,
         Bluetooth.openBluetoothSettings, Bluetooth.read, Bluetooth.write,
         Bluetooth.available, Bluetooth.clear.
  all: run; answers;
    cbn [native_calls List.filter is_native app fst snd];
    distinct_calls.
Qed.

Lemma no_native_call_is_repeated_witness :
  NoDup (native_calls (op_emitted StartDiscoveryOp discovery_fails [])).
Proof.
  apply (no_native_call_is_repeated StartDiscoveryOp discovery_fails []).
  reflexivity.
Defined.

(** ** Success of discovery, registrations, unreported causes *)

(** With Bluetooth on, every permission granted, and both the discovery call
    and the cancel call of the run succeeding, [startDiscovery] resolves to
    the devices the discovery call found, after cancelling and logging that
    it stopped. *)
Theorem startDiscovery_success_returns_devices
    (b : Binding) (h : History) (isBLenabled unpaired : Val) :
  RN_isBluetoothEnabled b h = Resolved isBLenabled ->
  truthy isBLenabled = true ->
  all_checks_granted b (h ++ [Native IsBluetoothEnabled]) = true ->
  RN_startDiscovery b (discovery_history h) = Resolved unpaired ->
  rejected (RN_cancelDiscovery b (discovery_history h ++ [Native StartDiscovery]))
  = false ->
  Bluetooth.startDiscovery b h =
    (Resolved unpaired,
     Native IsBluetoothEnabled :: check_calls ++
     [Native StartDiscovery; Native CancelDiscovery;
      Console Log [VStr "Discovery stopped"]]).
Proof.
  intros Hen Hv Hp Hdisc Hcancel.
  rewrite (startDiscovery_attempt_run b h isBLenabled Hen Hv Hp).
  unfold cancel_history, discovery_events. rewrite Hdisc.
  destruct (RN_cancelDiscovery b _); [reflexivity|discriminate Hcancel].
Qed.

Lemma startDiscovery_success_returns_devices_witness :
  outcome Bluetooth.startDiscovery happy [] =
    Resolved (VArray [VDevice "00:11:22:33:44:55"]).
Proof.
  unfold outcome.
  rewrite (startDiscovery_success_returns_devices happy [] (VBool true)
             (VArray [VDevice "00:11:22:33:44:55"])); reflexivity.
Defined.

(** The five registration functions add nothing to the binding's call: they
    return the binding's own subscription, and an exception of the binding
    passes through unchanged (there is no handler). *)
Theorem registrations_are_transparent
    (callback : nat) (b : Binding) (h : History) :
  Bluetooth.onBluetoothEnabled callback b h =
    (RN_onBluetoothEnabled b callback h, [Native (OnBluetoothEnabled callback)])
  /\
  Bluetooth.onBluetoothDisabled callback b h =
    (RN_onBluetoothDisabled b callback h,
     [Native (OnBluetoothDisabled callback)]) /\
  Bluetooth.onStateChanged callback b h =
    (RN_onStateChanged b callback h, [Native (OnStateChanged callback)]) /\
  Bluetooth.onDeviceConnected callback b h =
    (RN_onDeviceConnected b callback h, [Native (OnDeviceConnected callback)])
  /\
  Bluetooth.onDeviceDisconnected callback b h =
    (RN_onDeviceDisconnected b callback h,
     [Native (OnDeviceDisconnected callback)]).
Proof.
  unfold Bluetooth.onBluetoothEnabled, Bluetooth.onBluetoothDisabled,
    Bluetooth.onStateChanged, Bluetooth.onDeviceConnected,
    Bluetooth.onDeviceDisconnected. run.
  destruct (RN_onBluetoothEnabled b callback h),
    (RN_onBluetoothDisabled b callback h), (RN_onStateChanged b callback h),
    (RN_onDeviceConnected b callback h),
    (RN_onDeviceDisconnected b callback h); repeat split.
Qed.

(** [connectDevice] and [stopDiscovery] report a failure by their toast
    alone: when the connection fails (the binding rejects or answers with a
    falsy value) or the cancel call fails, the call and the toast are all
    that is emitted, and the cause is written nowhere.  Each function is
    taken on its own, at its own native answer. *)
Theorem connect_and_stop_do_not_report_the_cause
    (deviceId : string) (b : Binding) (h : History) :
  Bluetooth.connectDevice deviceId b h =
    (if failed (RN_connectToDevice b deviceId CR h) then
       (Resolved (VBool false),
        [Native (ConnectToDevice deviceId CR);
         Toast ("Error connecting to device: " +:+ deviceId) BOTTOM])
     else
       (RN_connectToDevice b deviceId CR h,
        [Native (ConnectToDevice deviceId CR);
         Console Log [VStr ("Connected to device: " +:+ deviceId)]])) /\
  Bluetooth.stopDiscovery b h =
    match RN_cancelDiscovery b h with
    | Resolved cancelled =>
        (Resolved VUndefined, [Native CancelDiscovery; Console Log [cancelled]])
    | Rejected _ =>
        (Resolved VUndefined,
         [Native CancelDiscovery;
          Toast "Error occurred while attempting to cancel discover devices"
            BOTTOM])
    end.
Proof.
  unfold Bluetooth.connectDevice, Bluetooth.stopDiscovery. run. split.
  - destruct (RN_connectToDevice b deviceId CR h) as [v|e]; [|reflexivity].
    cbn [failed]. destruct (truthy v); reflexivity.
  - destruct (RN_cancelDiscovery b h); reflexivity.
Qed.

Example connect_fails_cancel_works :
  Bluetooth.connectDevice "AA:BB" unreachable_devices [] =
    (Resolved (VBool false),
     [Native (ConnectToDevice "AA:BB" CR);
      Toast "Error connecting to device: AA:BB" BOTTOM]) /\
  Bluetooth.stopDiscovery unreachable_devices [] =
    (Resolved VUndefined,
     [Native CancelDiscovery; Console Log [VBool true]]).
Proof. split; reflexivity. Qed.
